(** * PI planning agents: goal validation and epic generation

    A shallow embedding of [app/agents/goal_validator.py] and
    [app/agents/epic_generator.py], and the properties of the two agents.

    Conventions of the embedding.
    - A Python [str] is a [string]; the text is taken to be ASCII, where
      [str.lower], [str.strip], [str.split] and the regex classes [\s], [\d]
      and [\w] are the functions of [PyStr] below.
    - A Python [float] is a binary64 [float] of the kernel, with the same
      round-to-nearest-even arithmetic; [int(x)] truncates toward zero.
    - A [dict] whose order is observed (Python keeps insertion order) is an
      association list.
    - [random.randint] reads an entropy source given as a function of the
      number of draws made so far; [datetime.now().isoformat()] is a given
      string; [time.sleep] does nothing observable. *)

From Stdlib Require Import String Ascii List Bool Arith NArith ZArith QArith Qround Lia.
From Stdlib Require Import DecimalString.
From Stdlib Require Import PrimFloat FloatOps FloatAxioms SpecFloat Uint63.
Import ListNotations.

(** The decimal constants of the agents (0.1, 0.2, ...) are read as Python
    reads them: the nearest binary64 value. *)
Set Warnings "-inexact-float".

Local Open Scope list_scope.
Local Open Scope string_scope.
Local Open Scope nat_scope.

(** ** Python strings *)

Module PyStr.

Definition ord (c : ascii) : nat := nat_of_ascii c.

Definition between (lo hi : nat) (c : ascii) : bool :=
  (lo <=? ord c) && (ord c <=? hi).

(** [str.isspace] and the class [\s]: TAB, LF, VT, FF, CR, FS, GS, RS, US and
    the space. *)
Definition isspace (c : ascii) : bool := between 9 13 c || between 28 32 c.

(** The class [\d]. *)
Definition isdigit (c : ascii) : bool := between 48 57 c.

Definition isupper (c : ascii) : bool := between 65 90 c.

Definition islower (c : ascii) : bool := between 97 122 c.

(** The class [\w]: letters, digits and the underscore. *)
Definition isword (c : ascii) : bool :=
  isdigit c || isupper c || islower c || (ord c =? 95).

Definition lower_char (c : ascii) : ascii :=
  if isupper c then ascii_of_nat (ord c + 32) else c.

Definition upper_char (c : ascii) : ascii :=
  if islower c then ascii_of_nat (ord c - 32) else c.

(** [s.lower()] *)
Fixpoint lower (s : string) : string :=
  match s with
  | EmptyString => EmptyString
  | String c t => String (lower_char c) (lower t)
  end.

(** [s.title()]: a letter that follows a letter is lower-cased, any other
    letter is upper-cased. *)
Fixpoint title_from (previous_is_cased : bool) (s : string) : string :=
  match s with
  | EmptyString => EmptyString
  | String c t =>
      String (if previous_is_cased then lower_char c else upper_char c)
             (title_from (isupper c || islower c) t)
  end.

Definition title (s : string) : string := title_from false s.

Fixpoint lstrip (s : string) : string :=
  match s with
  | EmptyString => EmptyString
  | String c t => if isspace c then lstrip t else s
  end.

Fixpoint rstrip (s : string) : string :=
  match s with
  | EmptyString => EmptyString
  | String c t =>
      match rstrip t with
      | EmptyString => if isspace c then EmptyString else String c EmptyString
      | t' => String c t'
      end
  end.

(** [s.strip()] *)
Definition strip (s : string) : string := rstrip (lstrip s).

(** [sub in s] *)
Fixpoint contains (sub s : string) : bool :=
  String.prefix sub s ||
  match s with
  | EmptyString => false
  | String _ t => contains sub t
  end.

(** [s[:n]] *)
Fixpoint take (n : nat) (s : string) : string :=
  match n, s with
  | S k, String c t => String c (take k t)
  | _, _ => EmptyString
  end.

(** [s[n:]] *)
Fixpoint drop (n : nat) (s : string) : string :=
  match n, s with
  | S k, String _ t => drop k t
  | _, _ => s
  end.

Fixpoint take_while (p : ascii -> bool) (s : string) : string :=
  match s with
  | EmptyString => EmptyString
  | String c t => if p c then String c (take_while p t) else EmptyString
  end.

Fixpoint drop_while (p : ascii -> bool) (s : string) : string :=
  match s with
  | EmptyString => EmptyString
  | String c t => if p c then drop_while p t else s
  end.

Definition is_empty (s : string) : bool :=
  match s with
  | EmptyString => true
  | String _ _ => false
  end.

(** [s.split()]: the maximal runs of characters that are not whitespace;
    [word] is the run being read. *)
Fixpoint split_from (word : string) (s : string) : list string :=
  match s with
  | EmptyString => if is_empty word then [] else [word]
  | String c t =>
      if isspace c
      then (if is_empty word then split_from "" t else word :: split_from "" t)
      else split_from (word ++ String c "") t
  end.

Definition split (s : string) : list string := split_from "" s.

(** [" ".join(parts)] *)
Fixpoint join_spaces (parts : list string) : string :=
  match parts with
  | [] => ""
  | [p] => p
  | p :: rest => p ++ " " ++ join_spaces rest
  end.

(** [str(n)] for a natural number. *)
Definition decimal (n : nat) : string :=
  NilEmpty.string_of_uint (Nat.to_uint n).

(** [str(n)] for a binary natural number. *)
Definition decimal_N (n : N) : string :=
  NilEmpty.string_of_uint (N.to_uint n).

End PyStr.

(** ** The regular expressions of the two agents

    A matcher reads one pattern at the start of a text and gives the text
    that follows the match.  The patterns of the agents are built from
    literals, character classes and ordered alternatives; where [re]
    backtracks (a greedy [\s*] in front of a class that also holds
    whitespace), the matcher is written as that backtracking. *)

Module PyRe.
Import PyStr.

Definition matcher : Type := string -> option string.

Definition newline : ascii := "010"%char.

Definition is_newline (c : ascii) : bool := Ascii.eqb c newline.

(** A literal. *)
Fixpoint lit (p s : string) : option string :=
  match p, s with
  | EmptyString, _ => Some s
  | String a p', String b s' => if Ascii.eqb a b then lit p' s' else None
  | String _ _, EmptyString => None
  end.

(** A literal under [re.IGNORECASE]. *)
Fixpoint lit_ci (p s : string) : option string :=
  match p, s with
  | EmptyString, _ => Some s
  | String a p', String b s' =>
      if Ascii.eqb (lower_char a) (lower_char b) then lit_ci p' s' else None
  | String _ _, EmptyString => None
  end.

(** [c+] for a class [c], read greedily.  It is used only in front of a
    pattern that starts with no character of [c], where the greedy read is
    the only one that can succeed. *)
Definition many1 (cls : ascii -> bool) (s : string) : option string :=
  match s with
  | EmptyString => None
  | String c t => if cls c then Some (drop_while cls t) else None
  end.

(** [c*], under the same condition. *)
Definition many0 (cls : ascii -> bool) (s : string) : option string :=
  Some (drop_while cls s).

(** [p?] for a literal [p] at the end of a pattern. *)
Definition opt (m : matcher) (s : string) : option string :=
  match m s with
  | Some r => Some r
  | None => Some s
  end.

Definition and_then (m1 m2 : matcher) : matcher :=
  fun s => match m1 s with
           | Some r => m2 r
           | None => None
           end.

Notation "m1 +> m2" := (and_then m1 m2) (at level 50, left associativity).

(** [m1|m2|...]: the first alternative that matches. *)
Fixpoint alt (ms : list matcher) (s : string) : option string :=
  match ms with
  | [] => None
  | m :: rest =>
      match m s with
      | Some r => Some r
      | None => alt rest s
      end
  end.

(** [re.search]: the match at the leftmost position that has one. *)
Fixpoint search_first {A : Type} (m : string -> option A) (s : string) : option A :=
  match m s with
  | Some a => Some a
  | None =>
      match s with
      | EmptyString => None
      | String _ t => search_first m t
      end
  end.

Definition is_some {A : Type} (o : option A) : bool :=
  match o with
  | Some _ => true
  | None => false
  end.

(** [re.search(p, s)] read as a truth value. *)
Definition search (m : matcher) (s : string) : bool := is_some (search_first m s).

(** [$] without [re.MULTILINE]: the end of the text, or just before a
    newline that ends it. *)
Definition at_end (s : string) : bool :=
  match s with
  | EmptyString => true
  | String c EmptyString => is_newline c
  | _ => false
  end.

(** [.*?(?=M|$)] under [re.DOTALL]: the shortest text up to a place where
    the marker [M] matches or [$] holds; the result is the text read and the
    text left. *)
Fixpoint lazy_body (marker : matcher) (s : string) : string * string :=
  if at_end s || is_some (marker s) then (EmptyString, s)
  else
    match s with
    | EmptyString => (EmptyString, s)
    | String c t =>
        let (body, rest) := lazy_body marker t in (String c body, rest)
    end.

(** [re.findall(M.*?(?=M|$), s, re.DOTALL)]: from the left, each match starts
    at the next place where the marker matches and the search goes on where
    the match ended.  A match holds at least one character, so [fuel] beyond
    the length of the text is never used up. *)
Fixpoint findall_blocks_from (marker : matcher) (fuel : nat) (s : string) : list string :=
  match fuel with
  | 0 => []
  | S fuel' =>
      match marker s with
      | Some after_marker =>
          let (body, rest) := lazy_body marker after_marker in
          let matched := take (String.length s - String.length after_marker) s in
          (matched ++ body) :: findall_blocks_from marker fuel' rest
      | None =>
          match s with
          | EmptyString => []
          | String _ t => findall_blocks_from marker fuel' t
          end
      end
  end.

Definition findall_blocks (marker : matcher) (s : string) : list string :=
  findall_blocks_from marker (S (String.length s)) s.

(** [re.split(sep, s)] for a separator that matches no empty text: [piece] is
    the text read since the last separator. *)
Fixpoint split_from (sep : matcher) (fuel : nat) (piece : string) (s : string) : list string :=
  match fuel with
  | 0 => [piece]
  | S fuel' =>
      match sep s with
      | Some rest => piece :: split_from sep fuel' EmptyString rest
      | None =>
          match s with
          | EmptyString => [piece]
          | String c t => split_from sep fuel' (piece ++ String c EmptyString) t
          end
      end
  end.

Definition split (sep : matcher) (s : string) : list string :=
  split_from sep (S (String.length s)) EmptyString s.

(** [\s*\n]: the greedy [\s*] gives back characters until a newline follows,
    so the match ends after the last newline of the whitespace that starts
    the text. *)
Fixpoint spaces_then_newline (s : string) : option string :=
  match s with
  | EmptyString => None
  | String c t =>
      if isspace c then
        match spaces_then_newline t with
        | Some r => Some r
        | None => if is_newline c then Some t else None
        end
      else None
  end.

(** [\s*([^x]+)] for the character [x] that [stop] holds of, giving group 1:
    the greedy [\s*] gives back characters until the class has one to read
    ([x] may itself be whitespace, as the newline is). *)
Fixpoint spaces_then_run (stop : ascii -> bool) (s : string) : option string :=
  match s with
  | EmptyString => None
  | String c t =>
      if isspace c then
        match spaces_then_run stop t with
        | Some g => Some g
        | None => if stop c then None else Some (take_while (fun a => negb (stop a)) s)
        end
      else if stop c then None
      else Some (take_while (fun a => negb (stop a)) s)
  end.

(** [re.sub(r'\s+', ' ', s)]; [in_run] says that the character before was
    whitespace. *)
Fixpoint collapse_spaces (in_run : bool) (s : string) : string :=
  match s with
  | EmptyString => EmptyString
  | String c t =>
      if isspace c
      then (if in_run then collapse_spaces true t
            else String " "%char (collapse_spaces true t))
      else String c (collapse_spaces false t)
  end.

(** A matcher that reads at least one character, and one that reads any
    number of them. *)
Definition consuming (m : matcher) : Prop :=
  forall s r, m s = Some r -> String.length r < String.length s.

Definition reading (m : matcher) : Prop :=
  forall s r, m s = Some r -> String.length r <= String.length s.

End PyRe.

(** ** Python floats *)

Module PyFloat.

Definition zero : float := 0%float.
Definition one : float := 1%float.

(** [max(a, b)]: [b] when [b > a], else [a]. *)
Definition py_max (a b : float) : float := if PrimFloat.ltb a b then b else a.

(** [min(a, b)]: [b] when [b < a], else [a]. *)
Definition py_min (a b : float) : float := if PrimFloat.ltb b a then b else a.

(** [float(n)] for an [int] below 2^63. *)
Definition of_int (n : Z) : float := PrimFloat.of_uint63 (Uint63.of_Z n).

(** [int(x)] for a finite [x]: the integer part, toward zero.  (Python
    raises on an infinity or a NaN; the scores are finite.) *)
Definition to_int (x : float) : Z :=
  match Prim2SF x with
  | S754_finite negative m e =>
      let magnitude :=
        if (0 <=? e)%Z then (Z.pos m * 2 ^ e)%Z else (Z.pos m / 2 ^ (- e))%Z in
      if negative then (- magnitude)%Z else magnitude
  | _ => 0%Z
  end.

End PyFloat.

(** ** Python dictionaries with string keys, in insertion order *)

Module PyDict.

Definition dict (V : Type) : Type := list (string * V).

(** [d.get(key, default)] *)
Fixpoint get {V : Type} (d : dict V) (key : string) (default : V) : V :=
  match d with
  | [] => default
  | (k, v) :: rest => if String.eqb k key then v else get rest key default
  end.

(** [key in d] *)
Fixpoint mem {V : Type} (d : dict V) (key : string) : bool :=
  match d with
  | [] => false
  | (k, _) :: rest => String.eqb k key || mem rest key
  end.

(** [d[key] = v]: a present key keeps its place, a new one goes last. *)
Fixpoint set {V : Type} (d : dict V) (key : string) (v : V) : dict V :=
  match d with
  | [] => [(key, v)]
  | (k, w) :: rest =>
      if String.eqb k key then (k, v) :: rest else (k, w) :: set rest key v
  end.

(** [d[key]], which raises [KeyError] on an absent key. *)
Fixpoint lookup {V : Type} (d : dict V) (key : string) : option V :=
  match d with
  | [] => None
  | (k, v) :: rest => if String.eqb k key then Some v else lookup rest key
  end.

Definition keys {V : Type} (d : dict V) : list string := map fst d.

End PyDict.

(** ** The goal validator ([GoalValidatorAgent]) *)

Module GoalValidator.
Import PyStr PyRe PyFloat.

(** [self.smart_criteria] *)

Definition specific_keywords : list string :=
  ["implement"; "develop"; "create"; "build"; "establish"; "achieve"].

Definition specific_anti_keywords : list string :=
  ["improve"; "enhance"; "better"; "optimize"; "increase"].

Definition measurable_keywords : list string :=
  ["%"; "percent"; "number"; "count"; "metric"; "kpi"; "score"; "rating"].

(** [\d+%], [\d+\.\d+], [\$\d+] and
    [\d+\s*(seconds?|minutes?|hours?|days?|weeks?)] *)
Definition measurable_patterns : list matcher :=
  [ many1 isdigit +> lit "%";
    many1 isdigit +> lit "." +> many1 isdigit;
    lit "$" +> many1 isdigit;
    many1 isdigit +> many0 isspace +>
      alt [ lit "second" +> opt (lit "s");
            lit "minute" +> opt (lit "s");
            lit "hour" +> opt (lit "s");
            lit "day" +> opt (lit "s");
            lit "week" +> opt (lit "s") ] ].

Definition achievable_keywords : list string :=
  ["realistic"; "feasible"; "attainable"; "possible"].

Definition achievable_warning_keywords : list string :=
  ["revolutionary"; "groundbreaking"; "100%"; "perfect"; "eliminate all"].

Definition relevant_keywords : list string :=
  ["business value"; "revenue"; "customer"; "user"; "efficiency"; "cost"].

Definition relevant_contexts : list string :=
  ["business"; "customer"; "user experience"; "performance"; "security"].

Definition time_bound_keywords : list string :=
  ["by"; "within"; "deadline"; "timeline"; "end of"; "complete by"].

Definition digit : matcher :=
  fun s => match s with
           | String c t => if isdigit c then Some t else None
           | EmptyString => None
           end.

(** [by\s+\w+\s+\d{4}], [within\s+\d+\s+\w+] and [end\s+of\s+\w+], which the
    agent searches under [re.IGNORECASE]. *)
Definition time_bound_patterns : list matcher :=
  [ lit_ci "by" +> many1 isspace +> many1 isword +> many1 isspace +>
      digit +> digit +> digit +> digit;
    lit_ci "within" +> many1 isspace +> many1 isdigit +> many1 isspace +>
      many1 isword;
    lit_ci "end" +> many1 isspace +> lit_ci "of" +> many1 isspace +>
      many1 isword ].

(** [for word in words: if word in text_lower: score = step(score)] *)
Definition for_each_word (words : list string) (text_lower : string)
  (step : float -> float) (score : float) : float :=
  fold_left (fun sc word => if contains word text_lower then step sc else sc)
            words score.

(** [for pattern in patterns: if re.search(pattern, text): score = step(score)] *)
Definition for_each_pattern (patterns : list matcher) (text : string)
  (step : float -> float) (score : float) : float :=
  fold_left (fun sc pattern => if search pattern text then step sc else sc)
            patterns score.

(** [min(1.0, max(0.0, score))] *)
Definition clamp (score : float) : float := py_min 1%float (py_max 0%float score).

Definition _check_specific (goal_text : string) : float :=
  let score := 0%float in
  let text_lower := lower goal_text in
  let score := for_each_word specific_keywords text_lower
                 (fun sc => (sc + 0.2)%float) score in
  let score := for_each_word specific_anti_keywords text_lower
                 (fun sc => (sc - 0.1)%float) score in
  let score := if 20 <? List.length (PyStr.split goal_text)
               then (score + 0.2)%float else score in
  clamp score.

Definition _check_measurable (goal_text : string) : float :=
  let score := 0%float in
  let text_lower := lower goal_text in
  let score := for_each_word measurable_keywords text_lower
                 (fun sc => (sc + 0.2)%float) score in
  let score := for_each_pattern measurable_patterns goal_text
                 (fun sc => (sc + 0.3)%float) score in
  let score := if contains "success criteria" text_lower
                  || contains "metrics" text_lower
               then (score + 0.3)%float else score in
  clamp score.

Definition _check_achievable (goal_text : string) : float :=
  let score := 0.7%float in
  let text_lower := lower goal_text in
  let score := for_each_word achievable_warning_keywords text_lower
                 (fun sc => (sc - 0.2)%float) score in
  let score := for_each_word achievable_keywords text_lower
                 (fun sc => (sc + 0.1)%float) score in
  clamp score.

Definition _check_relevant (goal_text : string) : float :=
  let score := 0%float in
  let text_lower := lower goal_text in
  let score := for_each_word relevant_keywords text_lower
                 (fun sc => (sc + 0.2)%float) score in
  let score := if contains "business value" text_lower
                  || contains "impact" text_lower
               then (score + 0.3)%float else score in
  let score := for_each_word relevant_contexts text_lower
                 (fun sc => (sc + 0.1)%float) score in
  clamp score.

Definition _check_time_bound (goal_text : string) : float :=
  let score := 0%float in
  let text_lower := lower goal_text in
  let score := for_each_word time_bound_keywords text_lower
                 (fun sc => (sc + 0.2)%float) score in
  let score := for_each_pattern time_bound_patterns goal_text
                 (fun sc => (sc + 0.4)%float) score in
  let score := if contains "pi" text_lower
                  || contains "program increment" text_lower
               then (score + 0.3)%float else score in
  clamp score.

(** [(?:GOAL\s+\d+:|Goal:)?] under [re.IGNORECASE] *)
Definition title_marker : matcher :=
  alt [ lit_ci "GOAL" +> many1 isspace +> many1 isdigit +> lit ":";
        lit_ci "Goal:" ].

(** [(?:GOAL\s+\d+:|Goal:)?\s*([^\n]+)] at the start of a text, giving
    group 1: with the marker when the rest then matches, else without it. *)
Definition title_pattern (s : string) : option string :=
  match title_marker s with
  | Some after_marker =>
      match spaces_then_run is_newline after_marker with
      | Some g => Some g
      | None => spaces_then_run is_newline s
      end
  | None => spaces_then_run is_newline s
  end.

Definition nl : string := String newline EmptyString.

Definition _generate_improved_goal (original_goal : string)
  (smart_assessment : PyDict.dict bool) (issues : list string) : string :=
  let title_match := search_first title_pattern original_goal in
  let core_objective :=
    match title_match with
    | Some group1 => strip group1
    | None => "Achieve objective"
    end in
  let improved_parts : list string := [] in
  let improved_parts :=
    if negb (PyDict.get smart_assessment "specific" false)
    then (improved_parts ++ [("Implement and deliver " ++ lower core_objective)%string])%list
    else (improved_parts ++ [core_objective])%list in
  let improved_parts :=
    if negb (PyDict.get smart_assessment "measurable" false)
    then (improved_parts ++
         ["with measurable success criteria including specific KPIs and performance targets"])%list
    else improved_parts in
  let improved_parts :=
    if negb (PyDict.get smart_assessment "relevant" false)
    then (improved_parts ++
         ["to deliver clear business value and improve operational efficiency"])%list
    else improved_parts in
  let improved_parts :=
    if negb (PyDict.get smart_assessment "time_bound" false)
    then (improved_parts ++ ["by the end of the current Program Increment (PI)"])%list
    else improved_parts in
  let improved_goal := join_spaces improved_parts in
  let improved_goal := improved_goal ++ nl ++ nl ++ "Success Criteria:" ++ nl in
  let improved_goal := improved_goal ++ "- Define specific, quantifiable metrics" ++ nl in
  let improved_goal := improved_goal ++ "- Establish baseline and target values" ++ nl in
  let improved_goal := improved_goal ++ "- Identify key stakeholders and beneficiaries" ++ nl in
  let improved_goal := improved_goal ++ "- Set clear acceptance criteria" ++ nl in
  let improved_goal := improved_goal ++ "- Define timeline with key milestones" in
  improved_goal.

(** The locals of [_analyze_single_goal] that the five criteria update. *)
Record Tally : Type := mkTally {
  tally_assessment : PyDict.dict bool;
  tally_issues : list string;
  tally_recommendations : list string;
  tally_score : float
}.

(** One criterion of [_analyze_single_goal]:
    [smart_assessment[name] = score > threshold]; a failing criterion appends
    its issue and its recommendation; [smart_score += score * 20]. *)
Definition assess (name : string) (score threshold : float)
  (issue recommendation : string) (t : Tally) : Tally :=
  let passed := PrimFloat.ltb threshold score in
  {| tally_assessment := PyDict.set (tally_assessment t) name passed;
     tally_issues :=
       if negb passed then (tally_issues t ++ [issue])%list else tally_issues t;
     tally_recommendations :=
       if negb passed then (tally_recommendations t ++ [recommendation])%list
       else tally_recommendations t;
     tally_score := (tally_score t + score * 20)%float |}.

(** The dictionary [_analyze_single_goal] returns. *)
Record GoalAnalysis : Type := mkGoalAnalysis {
  title : string;
  original_text : string;
  improved_version : string;
  smart_assessment : PyDict.dict bool;
  smart_score : Z;
  issues : list string;
  recommendations : list string
}.

Definition tally_of (goal_text : string) : Tally :=
  let t := {| tally_assessment := []; tally_issues := [];
              tally_recommendations := []; tally_score := PyFloat.of_int 0 |} in
  let t := assess "specific" (_check_specific goal_text) 0.4
             "Goal lacks specificity - too vague or general"
             "Be more specific about what exactly will be accomplished" t in
  let t := assess "measurable" (_check_measurable goal_text) 0.3
             "Goal lacks measurable success criteria"
             "Add specific metrics, numbers, or quantifiable outcomes" t in
  let t := assess "achievable" (_check_achievable goal_text) 0.3
             "Goal may be unrealistic or overly ambitious"
             "Ensure the goal is realistic given available resources and time" t in
  let t := assess "relevant" (_check_relevant goal_text) 0.3
             "Goal lacks clear business relevance or value"
             "Clearly state the business value and impact" t in
  let t := assess "time_bound" (_check_time_bound goal_text) 0.3
             "Goal lacks clear timeline or deadline"
             "Add specific deadlines and milestones" t in
  t.

Definition _analyze_single_goal (goal_text : string) (goal_number : nat) : GoalAnalysis :=
  let title_match := search_first title_pattern goal_text in
  let title :=
    match title_match with
    | Some group1 => strip group1
    | None => "Goal " ++ decimal goal_number
    end in
  let t := tally_of goal_text in
  let improved_version :=
    _generate_improved_goal goal_text (tally_assessment t) (tally_issues t) in
  {| title := title;
     original_text := goal_text;
     improved_version := improved_version;
     smart_assessment := tally_assessment t;
     smart_score := to_int (tally_score t);
     issues := tally_issues t;
     recommendations := tally_recommendations t |}.

(** [GOAL\s+\d+:] and [OBJECTIVE\s+\d+:] under [re.IGNORECASE] *)
Definition numbered_marker (word : string) : matcher :=
  lit_ci word +> many1 isspace +> many1 isdigit +> lit ":".

(** The markers of [goal_patterns]; each pattern is its marker, then
    [.*?(?=marker|$)]. *)
Definition goal_patterns : list matcher :=
  [ numbered_marker "GOAL"; numbered_marker "OBJECTIVE";
    lit_ci "Goal:"; lit_ci "Objective:" ].

(** [\n\s*\n|\d+\.\s+] *)
Definition goal_separator : matcher :=
  alt [ lit nl +> spaces_then_newline;
        many1 isdigit +> lit "." +> many1 isspace ].

Definition is_nil {A : Type} (l : list A) : bool :=
  match l with
  | [] => true
  | _ :: _ => false
  end.

(** The clean-up loop of [_extract_goals]. *)
Definition clean_goals (goals : list string) : list string :=
  fold_left
    (fun cleaned_goals goal =>
       let cleaned_goal := collapse_spaces false (strip goal) in
       if 20 <? String.length cleaned_goal
       then (cleaned_goals ++ [cleaned_goal])%list
       else cleaned_goals)
    goals [].

Definition _extract_goals (text_content : string) : list string :=
  let goals :=
    fold_left
      (fun goals pattern =>
         (goals ++ map strip (findall_blocks pattern text_content))%list)
      goal_patterns [] in
  let goals :=
    if is_nil goals then
      let potential_goals := PyRe.split goal_separator text_content in
      map strip
          (filter (fun goal => 50 <? String.length (strip goal)) potential_goals)
    else goals in
  let cleaned_goals := clean_goals goals in
  firstn 10 cleaned_goals.

Definition _determine_quality_level (smart_score : Z) : string :=
  if (90 <=? smart_score)%Z then "Excellent"
  else if (75 <=? smart_score)%Z then "Good"
  else if (60 <=? smart_score)%Z then "Fair"
  else if (40 <=? smart_score)%Z then "Poor"
  else "Very Poor".

(** [s.split(sep)[0]]: the text in front of the first [sep]. *)
Fixpoint before (sep s : string) : string :=
  if String.prefix sep s then EmptyString
  else
    match s with
    | EmptyString => EmptyString
    | String c t => String c (before sep t)
    end.

(** [issue.split(' - ')[0] if ' - ' in issue else issue] *)
Definition issue_type (issue : string) : string :=
  if contains " - " issue then before " - " issue else issue.

(** [issue_counts[issue_type] = issue_counts.get(issue_type, 0) + 1] over
    all the issues. *)
Definition count_issues (all_issues : list string) : PyDict.dict nat :=
  fold_left
    (fun issue_counts issue =>
       PyDict.set issue_counts (issue_type issue)
                  (PyDict.get issue_counts (issue_type issue) 0 + 1))
    all_issues [].

(** [issue_counts.get(key, 0) > len(validated_goals) * 0.5] *)
Definition is_common (issue_counts : PyDict.dict nat) (key : string)
  (validated_goals : list GoalAnalysis) : bool :=
  PrimFloat.ltb
    (PyFloat.of_int (Z.of_nat (List.length validated_goals)) * 0.5)%float
    (PyFloat.of_int (Z.of_nat (PyDict.get issue_counts key 0))).

Definition general_recommendations : list string :=
  [ "Consider breaking down large goals into smaller, manageable objectives";
    "Ensure goals align with overall PI objectives and business strategy";
    "Review and validate goals with key stakeholders";
    "Establish regular check-ins and progress reviews" ].

Definition _generate_overall_recommendations
  (validated_goals : list GoalAnalysis) : list string :=
  let recommendations : list string := [] in
  let all_issues :=
    fold_left (fun all_issues goal => (all_issues ++ issues goal)%list)
              validated_goals [] in
  let issue_counts := count_issues all_issues in
  let recommendations :=
    if is_common issue_counts "Goal lacks specificity" validated_goals
    then (recommendations ++
          ["Focus on making goals more specific and actionable"])%list
    else recommendations in
  let recommendations :=
    if is_common issue_counts "Goal lacks measurable success criteria" validated_goals
    then (recommendations ++
          ["Add quantifiable metrics and KPIs to all goals"])%list
    else recommendations in
  let recommendations :=
    if is_common issue_counts "Goal lacks clear timeline" validated_goals
    then (recommendations ++
          ["Establish clear deadlines and milestones for all goals"])%list
    else recommendations in
  let recommendations :=
    if is_common issue_counts "Goal lacks clear business relevance" validated_goals
    then (recommendations ++
          ["Clearly articulate business value and impact for each goal"])%list
    else recommendations in
  let recommendations := (recommendations ++ general_recommendations)%list in
  firstn 6 recommendations.

(** The dictionary [validate_goals] returns. *)
Record Report : Type := mkReport {
  report_original_text : string;
  goals_count : nat;
  goals : list GoalAnalysis;
  report_smart_score : Z;
  quality_level : string;
  report_recommendations : list string;
  processed_at : string
}.

(** The loop of [validate_goals] over [enumerate(goals)], from index [i]. *)
Fixpoint analyze_each (goals : list string) (i : nat)
  (validated_goals : list GoalAnalysis) (total_smart_score : Z)
  : list GoalAnalysis * Z :=
  match goals with
  | [] => (validated_goals, total_smart_score)
  | goal_text :: rest =>
      let goal_analysis := _analyze_single_goal goal_text (i + 1) in
      analyze_each rest (S i) (validated_goals ++ [goal_analysis])%list
                   (total_smart_score + smart_score goal_analysis)%Z
  end.

(** [validate_goals]; [now] is [datetime.now().isoformat()]. *)
Definition validate_goals (now : string) (text_content : string) : Report :=
  let goals := _extract_goals text_content in
  let (validated_goals, total_smart_score) := analyze_each goals 0 [] 0%Z in
  let overall_smart_score :=
    if negb (is_nil goals)
    then to_int (PyFloat.of_int total_smart_score
                 / PyFloat.of_int (Z.of_nat (List.length goals)))%float
    else 0%Z in
  let quality_level := _determine_quality_level overall_smart_score in
  {| report_original_text := text_content;
     goals_count := List.length goals;
     goals := validated_goals;
     report_smart_score := overall_smart_score;
     quality_level := quality_level;
     report_recommendations := _generate_overall_recommendations validated_goals;
     processed_at := now |}.

End GoalValidator.

(** ** The epic generator ([EpicGeneratorAgent]) *)

Module EpicGenerator.
Import PyStr PyRe.

(** [self.team_categories], in the order of the declaration, which the loop
    of [_suggest_team_assignment] follows. *)
Definition team_categories : PyDict.dict (list string) :=
  [ ("Frontend", ["UI"; "UX"; "React"; "Angular"; "Vue"; "mobile"; "web"; "interface"]);
    ("Backend", ["API"; "service"; "database"; "server"; "microservice"; "integration"]);
    ("DevOps", ["deployment"; "infrastructure"; "CI/CD"; "monitoring"; "security"]);
    ("QA", ["testing"; "quality"; "automation"; "validation"; "verification"]);
    ("Data", ["analytics"; "reporting"; "data"; "metrics"; "dashboard"]);
    ("Security", ["security"; "authentication"; "authorization"; "compliance"]) ].

Record Guideline : Type := mkGuideline {
  points : nat;
  description : string
}.

(** [self.effort_guidelines] *)
Definition effort_guidelines : PyDict.dict Guideline :=
  [ ("XS", mkGuideline 1 "Simple configuration or minor UI change");
    ("S", mkGuideline 2 "Small feature or bug fix");
    ("M", mkGuideline 3 "Medium complexity feature");
    ("L", mkGuideline 5 "Large feature requiring multiple components");
    ("XL", mkGuideline 8 "Complex feature with significant integration");
    ("XXL", mkGuideline 13 "Epic-level work requiring breakdown") ].

(** A goal is a dictionary of strings. *)
Definition Goal : Type := PyDict.dict string.

Record Template : Type := mkTemplate {
  template_title : string;
  template_description : string;
  template_acceptance_criteria : list string;
  template_effort_size : string
}.

Record Feature : Type := mkFeature {
  feature_id : string;
  epic_id : string;
  feature_title : string;
  feature_description : string;
  feature_acceptance_criteria : list string;
  feature_priority : string;
  effort_size : string;
  effort_points : nat;
  assigned_team : string;
  feature_status : string
}.

(** The dictionary [_generate_epic_from_goal] returns. *)
Record EpicHead : Type := mkEpicHead {
  id : string;
  epic_title : string;
  epic_description : string;
  priority : string;
  category : string;
  acceptance_criteria : list string;
  original_goal : string;
  status : string
}.

(** The same dictionary once [generate_epics_and_features] has stored the
    features and the two rollups in it. *)
Record Epic : Type := mkEpic {
  head : EpicHead;
  features : list Feature;
  feature_count : nat;
  total_effort : nat
}.

Record Summary : Type := mkSummary {
  total_epics : nat;
  total_features : nat;
  total_effort_points : nat;
  estimated_weeks : nat;
  teams_involved : nat
}.

Record GenerationResult : Type := mkGenerationResult {
  epics : list Epic;
  all_features : list Feature;
  team_assignments : PyDict.dict (list string);
  summary : Summary;
  generated_at : string
}.

(** *** Effects: the random identifiers and [KeyError]

    A computation reads the number of random draws made so far and either
    returns a value with the new number of draws or raises [KeyError]. *)

Inductive outcome (A : Type) : Type :=
| Ok (a : A)
| KeyError (key : string).

Arguments Ok {A} a.
Arguments KeyError {A} key.

Definition Gen (A : Type) : Type := nat -> outcome (A * nat).

Definition ret {A : Type} (a : A) : Gen A := fun draws => Ok (a, draws).

Definition bind {A B : Type} (m : Gen A) (k : A -> Gen B) : Gen B :=
  fun draws =>
    match m draws with
    | Ok (a, draws') => k a draws'
    | KeyError key => KeyError key
    end.

Notation "x <- m ;; k" := (bind m (fun x => k))
  (at level 61, m at next level, right associativity).

(** [d[key]] *)
Definition item {V : Type} (d : PyDict.dict V) (key : string) : Gen V :=
  match PyDict.lookup d key with
  | Some v => ret v
  | None => fun _ => KeyError key
  end.

Section Generator.

(** The entropy behind [random.randint]: the raw value of each draw. *)
Variable entropy : nat -> N.

(** [datetime.now().isoformat()] at the end of the run. *)
Variable now : string.

(** [random.randint(lo, hi)] *)
Definition randint (lo hi : N) : Gen N :=
  fun draws => Ok ((lo + entropy draws mod (hi - lo + 1))%N, S draws).

Definition is_dot (c : ascii) : bool := Ascii.eqb c "."%char.

(** [\s+([^.]+)], giving the second group. *)
Definition spaces_then_objective (s : string) : option string :=
  match s with
  | EmptyString => None
  | String c t => if isspace c then spaces_then_run is_dot t else None
  end.

(** [(verb1|verb2|...)\s+([^.]+)] under [re.IGNORECASE] at the start of a
    text, giving the two groups. *)
Fixpoint action_pattern (verbs : list string) (s : string) : option (string * string) :=
  match verbs with
  | [] => None
  | verb :: rest =>
      match lit_ci verb s with
      | Some after_verb =>
          match spaces_then_objective after_verb with
          | Some objective => Some (take (String.length verb) s, objective)
          | None => action_pattern rest s
          end
      | None => action_pattern rest s
      end
  end.

Definition action_patterns : list (list string) :=
  [ ["implement"; "develop"; "create"; "build"; "establish"; "design"];
    ["improve"; "enhance"; "optimize"] ].

(** The loop over [action_patterns], which returns at the first match. *)
Fixpoint first_action (patterns : list (list string)) (goal_text : string) : option string :=
  match patterns with
  | [] => None
  | pattern :: rest =>
      match search_first (action_pattern pattern) goal_text with
      | Some (group1, group2) =>
          let action := PyStr.title group1 in
          let objective := take 50 (strip group2) in
          Some (action ++ " " ++ objective)
      | None => first_action rest goal_text
      end
  end.

Definition _extract_epic_title (goal_text goal_title : string) : string :=
  if negb (is_empty goal_title) && negb (String.eqb goal_title "Untitled Goal")
  then take 60 goal_title
  else
    match first_action action_patterns goal_text with
    | Some epic_title => epic_title
    | None => "Epic: Business Objective Implementation"
    end.

Definition text_of (goal : Goal) : string :=
  PyDict.get goal "text" (PyDict.get goal "original_text" "").

Definition _generate_epic_from_goal (goal : Goal) : Gen EpicHead :=
  let goal_text := text_of goal in
  let goal_title := PyDict.get goal "title" "Untitled Goal" in
  let epic_title := _extract_epic_title goal_text goal_title in
  n <- randint 1000%N 9999%N ;;
  ret {| id := "EPIC-" ++ decimal_N n;
         epic_title := epic_title;
         epic_description :=
           if 200 <? String.length goal_text
           then take 200 goal_text ++ "..." else goal_text;
         priority := PyDict.get goal "priority" "Medium";
         category := PyDict.get goal "category" "Business";
         acceptance_criteria :=
           [ "All features are implemented and tested";
             "Business requirements are met";
             "Performance targets are achieved" ];
         original_goal := goal_text;
         status := "To Do" |}.

Definition _get_feature_templates (goal_text category : string) : list Template :=
  let templates :=
    [ mkTemplate "Requirements Analysis and Design"
        "Analyze requirements and create technical design"
        ["Requirements documented"; "Design approved"] "M";
      mkTemplate "Core Implementation"
        "Implement core functionality"
        ["Core features working"; "Unit tests passing"] "L";
      mkTemplate "User Interface Development"
        "Create user interface components"
        ["UI components created"; "Responsive design"] "M";
      mkTemplate "Integration and Testing"
        "Integrate components and perform testing"
        ["Integration complete"; "All tests passing"] "M";
      mkTemplate "Documentation and Deployment"
        "Create documentation and deploy to production"
        ["Documentation complete"; "Successfully deployed"] "S" ] in
  templates.

(** The inner loop of [_suggest_team_assignment], which returns the team at
    the first keyword found in the title. *)
Fixpoint scan_keywords (team : string) (keywords : list string)
  (title_lower : string) : option string :=
  match keywords with
  | [] => None
  | keyword :: rest =>
      if contains (lower keyword) title_lower then Some team
      else scan_keywords team rest title_lower
  end.

(** The outer loop, over [self.team_categories.items()]. *)
Fixpoint scan_teams (categories : PyDict.dict (list string))
  (title_lower : string) : option string :=
  match categories with
  | [] => None
  | (team, keywords) :: rest =>
      match scan_keywords team keywords title_lower with
      | Some found => Some found
      | None => scan_teams rest title_lower
      end
  end.

Definition _suggest_team_assignment (feature_title : string) : string :=
  let title_lower := lower feature_title in
  match scan_teams team_categories title_lower with
  | Some team => team
  | None => "Backend"
  end.

(** The loop of [_generate_features_for_epic] over the templates. *)
Fixpoint features_loop (epic : EpicHead) (templates : list Template)
  (features : list Feature) : Gen (list Feature) :=
  match templates with
  | [] => ret features
  | template :: rest =>
      n <- randint 1000%N 9999%N ;;
      guideline <- item effort_guidelines (template_effort_size template) ;;
      let feature :=
        {| feature_id := "FEAT-" ++ decimal_N n;
           epic_id := id epic;
           feature_title := template_title template;
           feature_description := template_description template;
           feature_acceptance_criteria := template_acceptance_criteria template;
           feature_priority := priority epic;
           effort_size := template_effort_size template;
           effort_points := points guideline;
           assigned_team := _suggest_team_assignment (template_title template);
           feature_status := "To Do" |} in
      features_loop epic rest (features ++ [feature])%list
  end.

Definition _generate_features_for_epic (epic : EpicHead) (goal : Goal) : Gen (list Feature) :=
  let goal_text := text_of goal in
  let feature_templates := _get_feature_templates goal_text (category epic) in
  features_loop epic (firstn 5 feature_templates) [].

(** The loop of [_assign_teams_to_features]. *)
Definition _assign_teams_to_features (features : list Feature) : PyDict.dict (list string) :=
  fold_left
    (fun team_assignments feature =>
       let team := assigned_team feature in
       let team_assignments :=
         if negb (PyDict.mem team_assignments team)
         then PyDict.set team_assignments team []
         else team_assignments in
       PyDict.set team_assignments team
         (PyDict.get team_assignments team [] ++ [feature_title feature])%list)
    features [].

(** The loop of [generate_epics_and_features] over the goals. *)
Fixpoint goals_loop (goals : list Goal) (generated_epics : list Epic)
  (all_features : list Feature) : Gen (list Epic * list Feature) :=
  match goals with
  | [] => ret (generated_epics, all_features)
  | goal :: rest =>
      epic <- _generate_epic_from_goal goal ;;
      features <- _generate_features_for_epic epic goal ;;
      let epic :=
        {| head := epic;
           features := features;
           feature_count := List.length features;
           total_effort := list_sum (map effort_points features) |} in
      goals_loop rest (generated_epics ++ [epic])%list
                 (all_features ++ features)%list
  end.

Definition generate_epics_and_features (goals : list Goal) : Gen GenerationResult :=
  loop <- goals_loop goals [] [] ;;
  let (generated_epics, all_features) := loop in
  let team_assignments := _assign_teams_to_features all_features in
  let total_effort := list_sum (map total_effort generated_epics) in
  ret {| epics := generated_epics;
         all_features := all_features;
         team_assignments := team_assignments;
         summary :=
           {| total_epics := List.length generated_epics;
              total_features := List.length all_features;
              total_effort_points := total_effort;
              estimated_weeks := Nat.max 1 (total_effort / 20);
              teams_involved := List.length team_assignments |};
         generated_at := now |}.

End Generator.

End EpicGenerator.

(** ** What the specification says, as definitions

    These follow the words of the specification, not the code; the theorems
    below compare them with the code. *)

Module Spec.
Import PyStr.

(** *** Team assignment *)

(** Some keyword of the team occurs in the lower-cased title. *)
Definition team_matches (title_lower : string) (entry : string * list string) : bool :=
  existsb (fun keyword => contains (lower keyword) title_lower) (snd entry).

(** The first team, in the order of the declaration, with a keyword in the
    title; Backend when there is none. *)
Definition first_matching_team (feature_title : string) : string :=
  match find (team_matches (lower feature_title)) EpicGenerator.team_categories with
  | Some (team, _) => team
  | None => "Backend"
  end.

(** A keyword of the keyword set of [team] occurs in the title. *)
Definition has_keyword_of (team : string) (feature_title : string) : bool :=
  team_matches (lower feature_title)
               (team, PyDict.get EpicGenerator.team_categories team []).

(** *** The feature templates *)

(** The size-to-points table. *)
Definition effort_table : list (string * nat) :=
  [("XS", 1); ("S", 2); ("M", 3); ("L", 5); ("XL", 8); ("XXL", 13)].

(** The titles of the five templates as the specification spells them. *)
Definition template_titles_as_specified : list string :=
  [ "Requirements Analysis & Design"; "Core Implementation";
    "User Interface Development"; "Integration and Testing";
    "Documentation and Deployment" ].

(** The titles and sizes of the five templates in the code. *)
Definition template_titles_and_sizes : list (string * string) :=
  [ ("Requirements Analysis and Design", "M"); ("Core Implementation", "L");
    ("User Interface Development", "M"); ("Integration and Testing", "M");
    ("Documentation and Deployment", "S") ].

(** The teams of the five features as the claim lists them. *)
Definition template_teams_as_claimed : list string :=
  ["Backend"; "Backend"; "Frontend"; "Backend"; "DevOps"].

(** The points of the five features, and their teams in the code. *)
Definition template_points : list nat := [3; 5; 3; 3; 2].

Definition template_teams : list string :=
  ["Frontend"; "Backend"; "Frontend"; "Backend"; "DevOps"].

(** The points of a feature are those of its size in the table. *)
Definition points_from_table (feature : EpicGenerator.Feature) : Prop :=
  PyDict.lookup effort_table (EpicGenerator.effort_size feature)
  = Some (EpicGenerator.effort_points feature).

(** What every generated epic satisfies. *)
Record epic_shape (epic : EpicGenerator.Epic) : Prop := mk_epic_shape {
  shape_titles_sizes :
    map (fun f => (EpicGenerator.feature_title f, EpicGenerator.effort_size f))
        (EpicGenerator.features epic) = template_titles_and_sizes;
  shape_points :
    map EpicGenerator.effort_points (EpicGenerator.features epic) = template_points;
  shape_teams :
    map EpicGenerator.assigned_team (EpicGenerator.features epic) = template_teams;
  shape_table : Forall points_from_table (EpicGenerator.features epic);
  shape_count :
    EpicGenerator.feature_count epic = List.length (EpicGenerator.features epic);
  shape_effort :
    EpicGenerator.total_effort epic
    = list_sum (map EpicGenerator.effort_points (EpicGenerator.features epic))
}.

(** The keys of the team map after one more feature of team [team]. *)
Definition add_key (keys : list string) (team : string) : list string :=
  if existsb (fun k => String.eqb k team) keys then keys else (keys ++ [team])%list.

(** The goal of the scenario of the specification. *)
Definition dashboard_goal : EpicGenerator.Goal :=
  [ ("text", "Build reporting dashboard"); ("title", "Dashboard");
    ("priority", "High"); ("category", "Data") ].

(** *** SMART dimensions *)

Definition dimensions : list string :=
  ["specific"; "measurable"; "achievable"; "relevant"; "time_bound"].

(** The fixed issue of a dimension. *)
Definition issue_of (dimension : string) : string :=
  if String.eqb dimension "specific" then "Goal lacks specificity - too vague or general"
  else if String.eqb dimension "measurable" then "Goal lacks measurable success criteria"
  else if String.eqb dimension "achievable" then "Goal may be unrealistic or overly ambitious"
  else if String.eqb dimension "relevant" then "Goal lacks clear business relevance or value"
  else "Goal lacks clear timeline or deadline".

(** The fixed recommendation of a dimension. *)
Definition recommendation_of (dimension : string) : string :=
  if String.eqb dimension "specific" then "Be more specific about what exactly will be accomplished"
  else if String.eqb dimension "measurable" then "Add specific metrics, numbers, or quantifiable outcomes"
  else if String.eqb dimension "achievable" then "Ensure the goal is realistic given available resources and time"
  else if String.eqb dimension "relevant" then "Clearly state the business value and impact"
  else "Add specific deadlines and milestones".

(** The dimensions a goal fails, in the order of its assessment. *)
Definition failing (assessment : PyDict.dict bool) : list string :=
  map fst (filter (fun entry => negb (snd entry)) assessment).

(** How many of the goals fail a dimension. *)
Definition failed (dimension : string) (goals : list GoalValidator.GoalAnalysis) : nat :=
  List.length
    (filter (fun goal => negb (PyDict.get (GoalValidator.smart_assessment goal) dimension true))
            goals).

(** The analysis of some goal. *)
Definition analysed (analysis : GoalValidator.GoalAnalysis) : Prop :=
  exists goal_text goal_number,
    analysis = GoalValidator._analyze_single_goal goal_text goal_number.

(** How often a key occurs among the types of the issues. *)
Definition occurrences (key : string) (all_issues : list string) : nat :=
  List.length (filter (String.eqb key) (map GoalValidator.issue_type all_issues)).

(** The targeted recommendations of the overall report. *)
Definition focus_on_specific : string :=
  "Focus on making goals more specific and actionable".

Definition add_metrics : string :=
  "Add quantifiable metrics and KPIs to all goals".

Definition targeted_recommendations : list string :=
  [ focus_on_specific; add_metrics;
    "Establish clear deadlines and milestones for all goals";
    "Clearly articulate business value and impact for each goal" ].

(** Sample documents. *)
Definition twenty_character_goal : string := "GOAL 1: abcdefghijkl".

Definition perfect_goal : string := "GOAL 1: Deliver a perfect onboarding flow".

Definition unrealistic_goal : string :=
  "GOAL 1: Implement, develop and create a revolutionary, groundbreaking and perfect customer revenue platform with a 20% metric, by the deadline and within 6 weeks".

(** *** The SMART score as the specification computes it *)

(** The exact value of a finite float. *)
Definition exact (x : float) : Q :=
  match Prim2SF x with
  | S754_finite negative m e =>
      let magnitude :=
        if (0 <=? e)%Z then inject_Z (Z.pos m * 2 ^ e)
        else Qmake (Z.pos m) (Pos.pow 2 (Z.to_pos (- e))) in
      if negative then Qopp magnitude else magnitude
  | _ => 0%Q
  end.

(** [round(q)], to the nearest integer, a tie going to the even one. *)
Definition round (q : Q) : Z :=
  let lo := Qfloor q in
  let rest := Qminus q (inject_Z lo) in
  match Qcompare rest (1 # 2) with
  | Lt => lo
  | Gt => (lo + 1)%Z
  | Eq => if Z.even lo then lo else (lo + 1)%Z
  end.

(** [round(sum of the 5 dimension raw scores x 20)] *)
Definition rounded_smart_score (goal_text : string) : Z :=
  round
    (Qmult
       (Qplus (exact (GoalValidator._check_specific goal_text))
       (Qplus (exact (GoalValidator._check_measurable goal_text))
       (Qplus (exact (GoalValidator._check_achievable goal_text))
       (Qplus (exact (GoalValidator._check_relevant goal_text))
              (exact (GoalValidator._check_time_bound goal_text))))))
       (inject_Z 20)).

End Spec.

(** ** The values the scores can take

    Every score is the result of a bounded number of equal steps from a
    constant, so the scores and their scaled sums range over finite lists,
    computed here. *)

Module ScoreValues.
Import GoalValidator.

Definition fmem (x : float) (l : list float) : bool :=
  existsb (PrimFloat.Leibniz.eqb x) l.

Fixpoint dedupe (l : list float) : list float :=
  match l with
  | [] => []
  | x :: rest =>
      let kept := dedupe rest in
      if fmem x kept then kept else x :: kept
  end.

(** The values after at most [n] steps from a value of [l]. *)
Definition iter_values (n : nat) (step : float -> float) (l : list float) : list float :=
  flat_map (fun x => map (fun k => Nat.iter k step x) (List.seq 0 (S n))) l.

(** The values after one step or none from a value of [l]. *)
Definition cond_values (step : float -> float) (l : list float) : list float :=
  (l ++ map step l)%list.

Definition specific_values : list float :=
  dedupe (map clamp
    (cond_values (fun sc => sc + 0.2)%float
      (iter_values (List.length specific_anti_keywords) (fun sc => sc - 0.1)%float
        (iter_values (List.length specific_keywords) (fun sc => sc + 0.2)%float
           [0%float])))).

Definition measurable_values : list float :=
  dedupe (map clamp
    (cond_values (fun sc => sc + 0.3)%float
      (iter_values (List.length measurable_patterns) (fun sc => sc + 0.3)%float
        (iter_values (List.length measurable_keywords) (fun sc => sc + 0.2)%float
           [0%float])))).

Definition achievable_values : list float :=
  dedupe (map clamp
    (iter_values (List.length achievable_keywords) (fun sc => sc + 0.1)%float
      (iter_values (List.length achievable_warning_keywords) (fun sc => sc - 0.2)%float
         [0.7%float]))).

Definition relevant_values : list float :=
  dedupe (map clamp
    (iter_values (List.length relevant_contexts) (fun sc => sc + 0.1)%float
      (cond_values (fun sc => sc + 0.3)%float
        (iter_values (List.length relevant_keywords) (fun sc => sc + 0.2)%float
           [0%float])))).

Definition time_bound_values : list float :=
  dedupe (map clamp
    (cond_values (fun sc => sc + 0.3)%float
      (iter_values (List.length time_bound_patterns) (fun sc => sc + 0.4)%float
        (iter_values (List.length time_bound_keywords) (fun sc => sc + 0.2)%float
           [0%float])))).

(** [smart_score += score * 20] from any of [totals] with any of [values]. *)
Definition add_scaled (totals values : list float) : list float :=
  dedupe (flat_map (fun total => map (fun score => total + score * 20)%float values) totals).

(** The values of [smart_score] before [int]. *)
Definition totals : list float :=
  add_scaled
    (add_scaled
       (add_scaled
          (add_scaled (add_scaled [PyFloat.of_int 0] specific_values) measurable_values)
          achievable_values)
       relevant_values)
    time_bound_values.

Definition in_unit_interval (x : float) : bool :=
  PrimFloat.leb 0 x && PrimFloat.leb x 1.

End ScoreValues.

(** ** The generator without its effects

    What a run of the generator builds, written as plain functions of the
    goals, the entropy and the number of draws made before. *)

Module EpicClosedForm.
Import PyStr EpicGenerator.

Section Closed.

Variable entropy : nat -> N.

(** The number that draw [i] of [random.randint(1000, 9999)] returns. *)
Definition drawn (i : nat) : N := (1000 + entropy i mod (9999 - 1000 + 1))%N.

Definition head_of (goal : Goal) (draws : nat) : EpicHead :=
  {| id := "EPIC-" ++ decimal_N (drawn draws);
     epic_title :=
       _extract_epic_title (text_of goal) (PyDict.get goal "title" "Untitled Goal");
     epic_description :=
       if 200 <? String.length (text_of goal)
       then take 200 (text_of goal) ++ "..." else text_of goal;
     priority := PyDict.get goal "priority" "Medium";
     category := PyDict.get goal "category" "Business";
     acceptance_criteria :=
       [ "All features are implemented and tested";
         "Business requirements are met";
         "Performance targets are achieved" ];
     original_goal := text_of goal;
     status := "To Do" |}.

(** The points of a size that [effort_guidelines] holds. *)
Definition points_of (size : string) : nat :=
  match PyDict.lookup effort_guidelines size with
  | Some guideline => points guideline
  | None => 0
  end.

Definition feature_of (epic : EpicHead) (draws : nat) (template : Template) : Feature :=
  {| feature_id := "FEAT-" ++ decimal_N (drawn draws);
     epic_id := id epic;
     feature_title := template_title template;
     feature_description := template_description template;
     feature_acceptance_criteria := template_acceptance_criteria template;
     feature_priority := priority epic;
     effort_size := template_effort_size template;
     effort_points := points_of (template_effort_size template);
     assigned_team := _suggest_team_assignment (template_title template);
     feature_status := "To Do" |}.

(** The features of an epic whose first feature takes draw [draws]. *)
Definition features_of (epic : EpicHead) (draws : nat) : list Feature :=
  map (fun numbered => feature_of epic (fst numbered + draws) (snd numbered))
      (combine (List.seq 0 5) (_get_feature_templates "" "")).

Definition epic_of (goal : Goal) (draws : nat) : Epic :=
  let epic := head_of goal draws in
  let features := features_of epic (S draws) in
  {| head := epic;
     features := features;
     feature_count := List.length features;
     total_effort := list_sum (map effort_points features) |}.

(** The epics of the goals, the first of which takes draw [draws]. *)
Fixpoint epics_of (goals : list Goal) (draws : nat) : list Epic :=
  match goals with
  | [] => []
  | goal :: rest => epic_of goal draws :: epics_of rest (6 + draws)
  end.

End Closed.

(** The titles that end up under the teams of a team map. *)
Definition titles_in (team_assignments : PyDict.dict (list string)) : nat :=
  list_sum (map (fun entry => List.length (snd entry)) team_assignments).

(** One turn of the loop of [_assign_teams_to_features]. *)
Definition assign_step (team_assignments : PyDict.dict (list string))
  (feature : Feature) : PyDict.dict (list string) :=
  let team := assigned_team feature in
  let team_assignments :=
    if negb (PyDict.mem team_assignments team)
    then PyDict.set team_assignments team []
    else team_assignments in
  PyDict.set team_assignments team
    (PyDict.get team_assignments team [] ++ [feature_title feature])%list.

(** A four-digit decimal numeral. *)
Definition four_digits (s : string) : bool :=
  (String.length s =? 4) && is_empty (drop_while isdigit s).

End EpicClosedForm.

(** ** The report without its loop *)

Module ReportClosedForm.
Import PyStr GoalValidator.

(** The analyses of the goals, the first of which has index [i]. *)
Fixpoint analyses_from (goals : list string) (i : nat) : list GoalAnalysis :=
  match goals with
  | [] => []
  | goal_text :: rest => _analyze_single_goal goal_text (i + 1) :: analyses_from rest (S i)
  end.

(** The sum of the scores of the goals. *)
Definition total_score (validated_goals : list GoalAnalysis) : Z :=
  fold_right Z.add 0%Z (map smart_score validated_goals).

(** How many words of a list occur in a text. *)
Definition hits (words : list string) (text_lower : string) : nat :=
  List.length (filter (fun word => contains word text_lower) words).

(** A text that starts with no whitespace, and one that ends with none. *)
Definition starts_clean (s : string) : bool :=
  match s with
  | EmptyString => true
  | String c _ => negb (isspace c)
  end.

Fixpoint ends_clean (s : string) : bool :=
  match s with
  | EmptyString => true
  | String c t => if is_empty t then negb (isspace c) else ends_clean t
  end.

End ReportClosedForm.

(** * The searches use no more fuel than the length of the text *)

Module PyReFacts.
Import PyStr PyRe.

Lemma lit_length (p s r : string) :
  lit p s = Some r -> String.length s = String.length p + String.length r.
Proof.
  revert s. induction p as [|a p IH]; intros [|b s]; cbn; try discriminate.
  - now intros [= <-].
  - now intros [= <-].
  - destruct (Ascii.eqb a b); [|discriminate]. intros H. now rewrite (IH _ H).
Qed.

Lemma lit_ci_length (p s r : string) :
  lit_ci p s = Some r -> String.length s = String.length p + String.length r.
Proof.
  revert s. induction p as [|a p IH]; intros [|b s]; cbn; try discriminate.
  - now intros [= <-].
  - now intros [= <-].
  - destruct (Ascii.eqb (lower_char a) (lower_char b)); [|discriminate].
    intros H. now rewrite (IH _ H).
Qed.

Lemma drop_while_length (cls : ascii -> bool) (s : string) :
  String.length (drop_while cls s) <= String.length s.
Proof.
  induction s as [|c t IH]; cbn; [lia|]. destruct (cls c); cbn; lia.
Qed.

Lemma many1_consuming (cls : ascii -> bool) : consuming (many1 cls).
Proof.
  intros [|c t] r; cbn; [discriminate|].
  destruct (cls c); [|discriminate]. intros [= <-].
  pose proof (drop_while_length cls t). lia.
Qed.

Lemma lit_consuming (p : string) : p <> EmptyString -> consuming (lit p).
Proof.
  intros Hp s r H. apply lit_length in H. destruct p; [contradiction|]. cbn in H. lia.
Qed.

Lemma lit_ci_consuming (p : string) : p <> EmptyString -> consuming (lit_ci p).
Proof.
  intros Hp s r H. apply lit_ci_length in H. destruct p; [contradiction|]. cbn in H. lia.
Qed.

Lemma consuming_reading (m : matcher) : consuming m -> reading m.
Proof. intros H s r Hm. specialize (H s r Hm). lia. Qed.

Lemma and_then_consuming (m1 m2 : matcher) :
  consuming m1 -> reading m2 -> consuming (m1 +> m2).
Proof.
  intros H1 H2 s r. unfold and_then. destruct (m1 s) as [r1|] eqn:E; [|discriminate].
  intros Hm. specialize (H1 _ _ E). specialize (H2 _ _ Hm). lia.
Qed.

Lemma alt_consuming (ms : list matcher) : Forall consuming ms -> consuming (alt ms).
Proof.
  induction 1 as [|m ms Hm _ IH]; intros s r; cbn; [discriminate|].
  destruct (m s) as [r1|] eqn:E.
  - intros [= <-]. exact (Hm _ _ E).
  - apply IH.
Qed.

Lemma spaces_then_newline_reading : reading spaces_then_newline.
Proof.
  intros s. induction s as [|c t IH]; intros r; cbn; [discriminate|].
  destruct (isspace c); [|discriminate].
  destruct (spaces_then_newline t) as [r1|].
  - intros [= <-]. specialize (IH _ eq_refl). lia.
  - destruct (is_newline c); [|discriminate]. intros [= <-]. lia.
Qed.

Lemma lazy_body_rest (marker : matcher) (s : string) :
  String.length (snd (lazy_body marker s)) <= String.length s.
Proof.
  induction s as [|c t IH]; cbn [lazy_body].
  - destruct (at_end "" || is_some (marker "")); cbn; lia.
  - destruct (at_end (String c t) || is_some (marker (String c t))); [cbn; lia|].
    destruct (lazy_body marker t) as [body rest]. cbn in *. lia.
Qed.

Section Fuel.

Variable marker : matcher.
Hypothesis marker_consuming : consuming marker.

(** [re.findall] with any fuel beyond the length of the text. *)
Lemma findall_blocks_fuel (fuel : nat) :
  forall (fuel' : nat) (s : string),
    String.length s < fuel -> String.length s < fuel' ->
    findall_blocks_from marker fuel s = findall_blocks_from marker fuel' s.
Proof.
  induction fuel as [|fuel IH]; intros [|fuel'] s Hfuel Hfuel'; try lia.
  cbn [findall_blocks_from].
  destruct (marker s) as [after_marker|] eqn:E.
  - pose proof (marker_consuming _ _ E) as Hshort.
    pose proof (lazy_body_rest marker after_marker) as Hrest.
    destruct (lazy_body marker after_marker) as [body rest]. cbn [snd] in Hrest.
    f_equal. apply IH; lia.
  - destruct s as [|c t]; [reflexivity|]. cbn in Hfuel, Hfuel'. apply IH; lia.
Qed.

(** [re.split] with any fuel beyond the length of the text. *)
Lemma split_fuel (fuel : nat) :
  forall (fuel' : nat) (piece s : string),
    String.length s < fuel -> String.length s < fuel' ->
    split_from marker fuel piece s = split_from marker fuel' piece s.
Proof.
  induction fuel as [|fuel IH]; intros [|fuel'] piece s Hfuel Hfuel'; try lia.
  cbn [split_from].
  destruct (marker s) as [rest|] eqn:E.
  - pose proof (marker_consuming _ _ E) as Hshort. f_equal. apply IH; lia.
  - destruct s as [|c t]; [reflexivity|]. cbn in Hfuel, Hfuel'. apply IH; lia.
Qed.

End Fuel.

(** The markers and the separator of the goal validator read at least one
    character. *)
Lemma goal_patterns_consuming : Forall consuming GoalValidator.goal_patterns.
Proof.
  unfold GoalValidator.goal_patterns, GoalValidator.numbered_marker.
  repeat constructor;
    repeat (apply and_then_consuming;
            [|first [ apply consuming_reading, many1_consuming
                    | apply consuming_reading, lit_consuming; discriminate ]]);
    apply lit_ci_consuming; discriminate.
Qed.

Lemma goal_separator_consuming : consuming GoalValidator.goal_separator.
Proof.
  unfold GoalValidator.goal_separator. apply alt_consuming. repeat constructor.
  - apply and_then_consuming; [|apply spaces_then_newline_reading].
    apply lit_consuming. discriminate.
  - apply and_then_consuming; [|apply consuming_reading, many1_consuming].
    apply and_then_consuming; [|apply consuming_reading, lit_consuming; discriminate].
    apply many1_consuming.
Qed.

End PyReFacts.

(** * Properties of the epic generator *)

Module EpicGeneratorFacts.
Import PyStr EpicGenerator Spec.

(** ** Team assignment *)

Lemma scan_keywords_existsb (team : string) (keywords : list string) (title_lower : string) :
  scan_keywords team keywords title_lower
  = if existsb (fun keyword => contains (lower keyword) title_lower) keywords
    then Some team else None.
Proof.
  induction keywords as [|keyword rest IH]; simpl.
  - reflexivity.
  - destruct (contains (lower keyword) title_lower); simpl; [reflexivity | exact IH].
Qed.

Lemma scan_teams_find (categories : PyDict.dict (list string)) (title_lower : string) :
  scan_teams categories title_lower
  = option_map fst (find (team_matches title_lower) categories).
Proof.
  induction categories as [|[team keywords] rest IH]; simpl.
  - reflexivity.
  - rewrite scan_keywords_existsb. unfold team_matches at 1. simpl.
    destruct (existsb _ keywords); simpl; [reflexivity | exact IH].
Qed.

Lemma suggest_is_first_matching (feature_title : string) :
  _suggest_team_assignment feature_title = first_matching_team feature_title.
Proof.
  unfold _suggest_team_assignment, first_matching_team.
  rewrite scan_teams_find.
  destruct (find _ team_categories) as [[team keywords]|]; reflexivity.
Qed.

Lemma find_all_false {A : Type} (f : A -> bool) (l : list A) :
  (forall x, In x l -> f x = false) -> find f l = None.
Proof.
  induction l as [|a l IH]; intros H; simpl.
  - reflexivity.
  - rewrite (H a (or_introl eq_refl)). apply IH. intros x Hx. apply H. now right.
Qed.

Lemma frontend_keyword_wins (feature_title : string) :
  has_keyword_of "Frontend" feature_title = true ->
  _suggest_team_assignment feature_title = "Frontend".
Proof.
  intros H. rewrite suggest_is_first_matching.
  unfold first_matching_team, team_categories.
  cbn [find]. unfold has_keyword_of in H.
  change (PyDict.get team_categories "Frontend" [])
    with ["UI"; "UX"; "React"; "Angular"; "Vue"; "mobile"; "web"; "interface"] in H.
  rewrite H. reflexivity.
Qed.

Lemma no_keyword_backend (feature_title : string) :
  (forall entry, In entry team_categories ->
                 team_matches (lower feature_title) entry = false) ->
  _suggest_team_assignment feature_title = "Backend".
Proof.
  intros H. rewrite suggest_is_first_matching. unfold first_matching_team.
  now rewrite (find_all_false _ _ H).
Qed.

(** ** The effects of the generator *)

Lemma bind_ok {A B : Type} (m : Gen A) (k : A -> Gen B) (a : A) (draws draws' : nat) :
  m draws = Ok (a, draws') -> bind m k draws = k a draws'.
Proof. intros H. unfold bind. now rewrite H. Qed.

Section Run.

Variable entropy : nat -> N.
Variable now : string.

Lemma epic_from_goal_ok (goal : Goal) (draws : nat) :
  exists epic, _generate_epic_from_goal entropy goal draws = Ok (epic, S draws).
Proof. eexists. reflexivity. Qed.

Lemma features_for_epic_shape (epic : EpicHead) (goal : Goal) (draws : nat) :
  exists features,
    _generate_features_for_epic entropy epic goal draws = Ok (features, 5 + draws)
    /\ map (fun f => (feature_title f, effort_size f)) features = template_titles_and_sizes
    /\ map effort_points features = template_points
    /\ map assigned_team features = template_teams
    /\ Forall points_from_table features.
Proof.
  eexists. split.
  { cbv -[decimal_N N.add N.modulo N.sub _suggest_team_assignment append Nat.add].
    reflexivity. }
  split; [reflexivity|]. split; [reflexivity|]. split; [vm_compute; reflexivity|].
  repeat constructor.
Qed.

Lemma goals_loop_shape (goals : list Goal) :
  forall (generated_epics : list Epic) (all_features : list Feature) (draws : nat),
  exists new_epics,
    goals_loop entropy goals generated_epics all_features draws
    = Ok ((generated_epics ++ new_epics,
           all_features ++ concat (map features new_epics))%list,
          6 * List.length goals + draws)
    /\ List.length new_epics = List.length goals
    /\ Forall epic_shape new_epics.
Proof.
  induction goals as [|goal rest IH]; intros generated_epics all_features draws.
  - exists []. simpl. rewrite !app_nil_r. repeat split. constructor.
  - destruct (epic_from_goal_ok goal draws) as [epic Hepic].
    destruct (features_for_epic_shape epic goal (S draws))
      as [fs (Hfs & Htitles & Hpoints & Hteams & Htable)].
    cbn [goals_loop].
    rewrite (bind_ok _ _ _ _ _ Hepic), (bind_ok _ _ _ _ _ Hfs).
    set (e := {| head := epic; features := fs; feature_count := List.length fs;
                 total_effort := list_sum (map effort_points fs) |}).
    destruct (IH (generated_epics ++ [e])%list (all_features ++ fs)%list (5 + S draws))
      as [es (Hloop & Hlen & Hshape)].
    exists (e :: es). rewrite Hloop. split; [|split].
    + cbn [map concat features e]. rewrite <- !app_assoc. cbn [app List.length].
      do 2 f_equal. lia.
    + simpl. now rewrite Hlen.
    + constructor; [|exact Hshape]. constructor; try assumption; reflexivity.
Qed.

Lemma generate_shape (goals : list Goal) (draws : nat) :
  exists new_epics,
    generate_epics_and_features entropy now goals draws
    = Ok ({| epics := new_epics;
             all_features := concat (map features new_epics);
             team_assignments :=
               _assign_teams_to_features (concat (map features new_epics));
             summary :=
               {| total_epics := List.length new_epics;
                  total_features := List.length (concat (map features new_epics));
                  total_effort_points := list_sum (map total_effort new_epics);
                  estimated_weeks :=
                    Nat.max 1 (list_sum (map total_effort new_epics) / 20);
                  teams_involved :=
                    List.length
                      (_assign_teams_to_features (concat (map features new_epics))) |};
             generated_at := now |},
          6 * List.length goals + draws)
    /\ List.length new_epics = List.length goals
    /\ Forall epic_shape new_epics.
Proof.
  destruct (goals_loop_shape goals [] [] draws) as [es (Hloop & Hlen & Hshape)].
  exists es. split; [|split; assumption].
  unfold generate_epics_and_features.
  rewrite (bind_ok _ _ _ _ _ Hloop). reflexivity.
Qed.

(** ** The team map *)

Lemma mem_keys {V : Type} (d : PyDict.dict V) (key : string) :
  PyDict.mem d key = existsb (fun k => String.eqb k key) (PyDict.keys d).
Proof.
  induction d as [|[k v] rest IH]; simpl; [reflexivity|]. now rewrite IH.
Qed.

Lemma keys_set {V : Type} (d : PyDict.dict V) (key : string) (v : V) :
  PyDict.keys (PyDict.set d key v)
  = if PyDict.mem d key then PyDict.keys d else (PyDict.keys d ++ [key])%list.
Proof.
  induction d as [|[k w] rest IH]; simpl; [reflexivity|].
  destruct (String.eqb k key); simpl; [reflexivity|].
  rewrite IH. now destruct (PyDict.mem rest key).
Qed.

Lemma mem_set_same {V : Type} (d : PyDict.dict V) (key : string) (v : V) :
  PyDict.mem (PyDict.set d key v) key = true.
Proof.
  induction d as [|[k w] rest IH]; simpl.
  - now rewrite String.eqb_refl.
  - destruct (String.eqb k key) eqn:E; simpl; rewrite E; [reflexivity | exact IH].
Qed.

Lemma assign_teams_keys (features : list Feature) :
  forall team_assignments : PyDict.dict (list string),
    PyDict.keys
      (fold_left
         (fun team_assignments feature =>
            let team := assigned_team feature in
            let team_assignments :=
              if negb (PyDict.mem team_assignments team)
              then PyDict.set team_assignments team []
              else team_assignments in
            PyDict.set team_assignments team
              (PyDict.get team_assignments team [] ++ [feature_title feature])%list)
         features team_assignments)
    = fold_left add_key (map assigned_team features) (PyDict.keys team_assignments).
Proof.
  induction features as [|f rest IH]; intros d; [reflexivity|].
  cbn [fold_left map]. rewrite IH. f_equal. cbv zeta.
  unfold add_key. rewrite <- mem_keys.
  destruct (PyDict.mem d (assigned_team f)) eqn:E; cbn [negb].
  - now rewrite keys_set, E.
  - now rewrite keys_set, mem_set_same, keys_set, E.
Qed.

Lemma team_keys_of_shaped_epics (new_epics : list Epic) (keys : list string) :
  Forall epic_shape new_epics ->
  keys = [] \/ keys = ["Frontend"; "Backend"; "DevOps"] ->
  fold_left add_key (map assigned_team (concat (map features new_epics))) keys
  = match new_epics with
    | [] => keys
    | _ :: _ => ["Frontend"; "Backend"; "DevOps"]
    end.
Proof.
  intros Hshape. revert keys.
  induction Hshape as [|e es He Hes IH]; intros keys Hkeys; [reflexivity|].
  cbn [map concat]. rewrite map_app, fold_left_app, (shape_teams _ He).
  assert (Hstep : fold_left add_key template_teams keys = ["Frontend"; "Backend"; "DevOps"])
    by (destruct Hkeys as [-> | ->]; reflexivity).
  rewrite Hstep, IH by (now right). now destruct es.
Qed.

End Run.

(** ** The claims *)

(** C4. Team assignment follows the declaration order Frontend, Backend,
    DevOps, QA, Data, Security and is decided by the first team one of whose
    keywords (lower-cased) is a substring of the lower-cased title; a title
    with a Frontend keyword and a Backend keyword goes to Frontend; a title
    with no keyword of any team goes to Backend. *)
Theorem C4_team_assignment_first_match :
  PyDict.keys team_categories
  = ["Frontend"; "Backend"; "DevOps"; "QA"; "Data"; "Security"]
  /\ (forall feature_title,
        _suggest_team_assignment feature_title = first_matching_team feature_title)
  /\ (forall feature_title,
        has_keyword_of "Frontend" feature_title = true ->
        has_keyword_of "Backend" feature_title = true ->
        _suggest_team_assignment feature_title = "Frontend")
  /\ (forall feature_title,
        (forall entry, In entry team_categories ->
                       team_matches (lower feature_title) entry = false) ->
        _suggest_team_assignment feature_title = "Backend").
Proof.
  split; [reflexivity|]. split; [exact suggest_is_first_matching|]. split.
  - intros feature_title Hfront _. now apply frontend_keyword_wins.
  - exact no_keyword_backend.
Qed.

(** C4 at the title "Web API gateway", which holds the Frontend keyword
    "web" and the Backend keyword "API". *)
Lemma C4_team_assignment_witness :
  has_keyword_of "Frontend" "Web API gateway" = true
  /\ has_keyword_of "Backend" "Web API gateway" = true
  /\ _suggest_team_assignment "Web API gateway" = "Frontend".
Proof.
  split; [reflexivity|]. split; [reflexivity|].
  apply (proj1 (proj2 (proj2 C4_team_assignment_first_match)) "Web API gateway");
    reflexivity.
Defined.

(** C5, as the specification states it, fails on the title of the first
    template: the code spells it "Requirements Analysis and Design". *)
Lemma C5_template_titles_counterexample :
  exists result draws',
    generate_epics_and_features (fun _ => 0%N) "" [dashboard_goal] 0 = Ok (result, draws')
    /\ map feature_title (all_features result) <> template_titles_as_specified
    /\ hd_error (map feature_title (all_features result))
       = Some "Requirements Analysis and Design".
Proof.
  eexists. eexists. split; [vm_compute; reflexivity|].
  split; [discriminate | reflexivity].
Qed.

(** C5, amended. Every run returns, with one epic per goal; every epic has
    exactly the five features of the templates, in the order Requirements
    Analysis and Design (M), Core Implementation (L), User Interface
    Development (M), Integration and Testing (M), Documentation and
    Deployment (S), whatever the goal; so its total effort is 16, and a run
    on a single goal reports 16 effort points and 1 estimated week. *)
Theorem C5_five_fixed_features (entropy : nat -> N) (now : string) :
  (forall goals draws, exists result draws',
      generate_epics_and_features entropy now goals draws = Ok (result, draws')
      /\ List.length (epics result) = List.length goals
      /\ Forall (fun epic =>
                   map (fun f => (feature_title f, effort_size f)) (features epic)
                   = template_titles_and_sizes
                   /\ List.length (features epic) = 5
                   /\ feature_count epic = 5
                   /\ total_effort epic = 3 + 5 + 3 + 3 + 2)
                (epics result))
  /\ (forall goal draws, exists result draws',
      generate_epics_and_features entropy now [goal] draws = Ok (result, draws')
      /\ total_effort_points (summary result) = 16
      /\ estimated_weeks (summary result) = Nat.max 1 (16 / 20)
      /\ estimated_weeks (summary result) = 1).
Proof.
  split.
  - intros goals draws.
    destruct (generate_shape entropy now goals draws) as [es (Hrun & Hlen & Hshape)].
    eexists. eexists. split; [exact Hrun|]. cbn [epics]. split; [exact Hlen|].
    eapply Forall_impl; [|exact Hshape]. intros e He.
    assert (Hfive : List.length (features e) = 5).
    { rewrite <- (length_map effort_points), (shape_points _ He). reflexivity. }
    split; [exact (shape_titles_sizes _ He)|]. split; [exact Hfive|].
    split; [now rewrite (shape_count _ He)|].
    now rewrite (shape_effort _ He), (shape_points _ He).
  - intros goal draws.
    destruct (generate_shape entropy now [goal] draws) as [es (Hrun & Hlen & Hshape)].
    eexists. eexists. split; [exact Hrun|]. cbn [summary total_effort_points estimated_weeks].
    destruct es as [|e [|e' es]]; try discriminate Hlen.
    inversion Hshape as [|? ? He _]; subst.
    cbn [map list_sum]. rewrite (shape_effort _ He), (shape_points _ He).
    repeat split.
Qed.

(** C7. Every run returns, and in every epic of the result the total effort
    is the sum of the effort points of its features, the feature count is
    the length of its feature list, and the effort points of each feature
    are the value of the table XS=1, S=2, M=3, L=5, XL=8, XXL=13 at its
    effort size; the table is that of [effort_guidelines]. *)
Theorem C7_epic_rollups (entropy : nat -> N) (now : string) (goals : list Goal) (draws : nat) :
  exists result draws',
    generate_epics_and_features entropy now goals draws = Ok (result, draws')
    /\ Forall (fun epic =>
                 total_effort epic = list_sum (map effort_points (features epic))
                 /\ feature_count epic = List.length (features epic)
                 /\ Forall points_from_table (features epic))
              (epics result)
    /\ map (fun entry => (fst entry, points (snd entry))) effort_guidelines = effort_table.
Proof.
  destruct (generate_shape entropy now goals draws) as [es (Hrun & _ & Hshape)].
  eexists. eexists. split; [exact Hrun|]. split; [|reflexivity]. cbn [epics].
  eapply Forall_impl; [|exact Hshape]. intros e He.
  split; [exact (shape_effort _ He)|]. split; [exact (shape_count _ He)|].
  exact (shape_table _ He).
Qed.

(** C8. On the empty goal list the generator raises nothing and returns no
    epic, no feature, an empty team map, zero effort points, one estimated
    week and zero teams. *)
Theorem C8_empty_goal_list (entropy : nat -> N) (now : string) (draws : nat) :
  generate_epics_and_features entropy now [] draws
  = Ok ({| epics := [];
           all_features := [];
           team_assignments := [];
           summary := {| total_epics := 0; total_features := 0;
                         total_effort_points := 0; estimated_weeks := 1;
                         teams_involved := 0 |};
           generated_at := now |},
        draws).
Proof. reflexivity. Qed.

(** C10, as stated, fails on the first feature: "Requirements Analysis and
    Design" goes to Frontend, not to Backend. *)
Lemma C10_template_teams_counterexample :
  exists result draws',
    generate_epics_and_features (fun _ => 0%N) "" [dashboard_goal] 0 = Ok (result, draws')
    /\ map assigned_team (all_features result) <> template_teams_as_claimed
    /\ hd_error (map assigned_team (all_features result)) = Some "Frontend".
Proof.
  eexists. eexists. split; [vm_compute; reflexivity|].
  split; [discriminate | reflexivity].
Qed.

(** C10, amended. The five features of every epic go to Frontend, Backend,
    Frontend, Backend, DevOps: "Requirements Analysis and Design" to
    Frontend, since the keyword "UI" occurs in "requirements"; "Core
    Implementation" to Backend by default; "User Interface Development" to
    Frontend, with the keyword "interface"; "Integration and Testing" to
    Backend, with the keyword "integration"; "Documentation and Deployment"
    to DevOps, with the keyword "deployment".  So on a goal list that is not empty the team map
    has the keys Frontend, Backend, DevOps and three teams are involved. *)
Theorem C10_template_teams (entropy : nat -> N) (now : string) :
  map _suggest_team_assignment (map fst template_titles_and_sizes) = template_teams
  /\ contains (lower "UI") (lower "Requirements Analysis and Design") = true
  /\ Forall (fun entry => team_matches (lower "Core Implementation") entry = false)
            team_categories
  /\ contains (lower "interface") (lower "User Interface Development") = true
  /\ contains (lower "integration") (lower "Integration and Testing") = true
  /\ contains (lower "deployment") (lower "Documentation and Deployment") = true
  /\ forall goal rest draws, exists result draws',
      generate_epics_and_features entropy now (goal :: rest) draws = Ok (result, draws')
      /\ Forall (fun epic => map assigned_team (features epic) = template_teams)
                (epics result)
      /\ PyDict.keys (team_assignments result) = ["Frontend"; "Backend"; "DevOps"]
      /\ teams_involved (summary result) = 3.
Proof.
  split; [reflexivity|]. split; [reflexivity|].
  split; [repeat constructor|].
  split; [reflexivity|]. split; [reflexivity|]. split; [reflexivity|].
  intros goal rest draws.
  destruct (generate_shape entropy now (goal :: rest) draws) as [es (Hrun & Hlen & Hshape)].
  eexists. eexists. split; [exact Hrun|].
  cbn [epics team_assignments summary teams_involved].
  assert (Hkeys : PyDict.keys (_assign_teams_to_features (concat (map features es)))
                  = ["Frontend"; "Backend"; "DevOps"]).
  { unfold _assign_teams_to_features. rewrite assign_teams_keys.
    change (PyDict.keys (@nil (string * list string))) with (@nil string).
    rewrite (team_keys_of_shaped_epics es [] Hshape) by (now left).
    destruct es; [discriminate Hlen | reflexivity]. }
  split; [|split].
  - eapply Forall_impl; [|exact Hshape]. intros e He. exact (shape_teams _ He).
  - exact Hkeys.
  - unfold PyDict.keys in Hkeys.
    rewrite <- (length_map fst), Hkeys. reflexivity.
Qed.

End EpicGeneratorFacts.

(** * Properties of the goal validator *)

Module GoalValidatorFacts.
Import PyStr PyRe PyFloat GoalValidator Spec.

(** ** One goal *)

Lemma tally_shape (goal_text : string) :
  PyDict.keys (tally_assessment (tally_of goal_text)) = dimensions
  /\ tally_issues (tally_of goal_text)
     = map issue_of (failing (tally_assessment (tally_of goal_text)))
  /\ tally_recommendations (tally_of goal_text)
     = map recommendation_of (failing (tally_assessment (tally_of goal_text))).
Proof.
  unfold tally_of, assess.
  cbn [tally_assessment tally_issues tally_recommendations tally_score].
  destruct (PrimFloat.ltb 0.4 (_check_specific goal_text)),
           (PrimFloat.ltb 0.3 (_check_measurable goal_text)),
           (PrimFloat.ltb 0.3 (_check_achievable goal_text)),
           (PrimFloat.ltb 0.3 (_check_relevant goal_text)),
           (PrimFloat.ltb 0.3 (_check_time_bound goal_text));
    repeat split; reflexivity.
Qed.

(** ** The claims about one goal *)

(** C6. For every goal the assessment holds the five dimensions in the
    fixed order; the issues are as many as the dimensions assessed false;
    each failing dimension contributes its one fixed issue and its one fixed
    recommendation, in the order of the dimensions. *)
Theorem C6_issues_match_failing_dimensions (goal_text : string) (goal_number : nat) :
  PyDict.keys (smart_assessment (_analyze_single_goal goal_text goal_number)) = dimensions
  /\ List.length (issues (_analyze_single_goal goal_text goal_number))
     = List.length
         (filter (fun entry => negb (snd entry))
                 (smart_assessment (_analyze_single_goal goal_text goal_number)))
  /\ issues (_analyze_single_goal goal_text goal_number)
     = map issue_of (failing (smart_assessment (_analyze_single_goal goal_text goal_number)))
  /\ recommendations (_analyze_single_goal goal_text goal_number)
     = map recommendation_of
           (failing (smart_assessment (_analyze_single_goal goal_text goal_number))).
Proof.
  destruct (tally_shape goal_text) as (Hkeys & Hissues & Hrecs).
  cbn [_analyze_single_goal smart_assessment issues recommendations].
  split; [exact Hkeys|]. split; [|split; assumption].
  rewrite Hissues. unfold failing. now rewrite !length_map.
Qed.

(** C3 at the document [perfect_goal]. Its one goal scores 0, 0, 0.7 - 0.2,
    0 and 0 on the five dimensions; 0.7 - 0.2 is the float just below 0.5
    and its product by 20 the float just below 10, which [int] truncates:
    the goal gets the score 9, where the rounded sum of the scaled scores
    is 10. *)
Theorem C3_smart_score_truncates :
  _extract_goals perfect_goal = [perfect_goal]
  /\ _check_specific perfect_goal = 0%float
  /\ _check_measurable perfect_goal = 0%float
  /\ _check_achievable perfect_goal = (0.7 - 0.2)%float
  /\ _check_relevant perfect_goal = 0%float
  /\ _check_time_bound perfect_goal = 0%float
  /\ PrimFloat.ltb ((0.7 - 0.2) * 20) 10 = true
  /\ map smart_score (goals (validate_goals "" perfect_goal)) = [9%Z]
  /\ map (fun goal => rounded_smart_score (original_text goal))
         (goals (validate_goals "" perfect_goal)) = [10%Z].
Proof. repeat split; vm_compute; reflexivity. Qed.

(** ** Segmentation *)

Lemma clean_goals_from_long (goals : list string) :
  forall cleaned_goals : list string,
    Forall (fun goal => 20 < String.length goal) cleaned_goals ->
    Forall (fun goal => 20 < String.length goal)
           (fold_left
              (fun cleaned_goals goal =>
                 let cleaned_goal := collapse_spaces false (strip goal) in
                 if 20 <? String.length cleaned_goal
                 then (cleaned_goals ++ [cleaned_goal])%list
                 else cleaned_goals)
              goals cleaned_goals).
Proof.
  induction goals as [|goal rest IH]; intros cleaned_goals Hlong; [exact Hlong|].
  cbn [fold_left]. apply IH. cbv zeta.
  destruct (20 <? String.length (collapse_spaces false (strip goal))) eqn:E.
  - apply Forall_app. split; [exact Hlong|].
    constructor; [|constructor]. now apply Nat.ltb_lt.
  - exact Hlong.
Qed.

Lemma Forall_firstn {A : Type} (P : A -> Prop) (n : nat) (l : list A) :
  Forall P l -> Forall P (firstn n l).
Proof.
  intros H. revert n. induction H as [|a l Ha Hl IH]; intros [|n]; cbn [firstn];
    constructor; auto.
Qed.

(** Every goal that segmentation returns is longer than 20 characters, and
    there are at most 10 of them. *)
Lemma extracted_goals_long (text_content : string) :
  Forall (fun goal => 20 < String.length goal) (_extract_goals text_content)
  /\ List.length (_extract_goals text_content) <= 10.
Proof.
  unfold _extract_goals. split.
  - apply Forall_firstn. unfold clean_goals.
    apply clean_goals_from_long. constructor.
  - apply firstn_le_length.
Qed.

(** C1 at the document [twenty_character_goal]. Its one candidate is 20
    characters long once normalized, and segmentation discards it: the
    clean-up keeps a candidate only when it is longer than 20 characters, so
    the shortest goal that is kept has 21. *)
Theorem C1_twenty_characters_discarded :
  findall_blocks (numbered_marker "GOAL") twenty_character_goal = [twenty_character_goal]
  /\ String.length (collapse_spaces false (strip twenty_character_goal)) = 20
  /\ _extract_goals twenty_character_goal = []
  /\ _extract_goals (twenty_character_goal ++ "m") = [twenty_character_goal ++ "m"].
Proof. repeat split; vm_compute; reflexivity. Qed.

(** ** The report *)

(** C9. When segmentation finds no goal, the report has the four general
    recommendations and no other, no goal, the count 0 and the score 0. *)
Theorem C9_no_goals_four_recommendations (now text_content : string) :
  _extract_goals text_content = [] ->
  report_recommendations (validate_goals now text_content) = general_recommendations
  /\ List.length (report_recommendations (validate_goals now text_content)) = 4
  /\ goals_count (validate_goals now text_content) = 0
  /\ goals (validate_goals now text_content) = []
  /\ report_smart_score (validate_goals now text_content) = 0%Z.
Proof.
  intros Hnone. unfold validate_goals. rewrite Hnone.
  repeat split; vm_compute; reflexivity.
Qed.

(** C9 at the empty document. *)
Lemma C9_empty_document_witness :
  _extract_goals "" = []
  /\ report_recommendations (validate_goals "" "") = general_recommendations
  /\ List.length (report_recommendations (validate_goals "" "")) = 4
  /\ goals_count (validate_goals "" "") = 0
  /\ goals (validate_goals "" "") = []
  /\ report_smart_score (validate_goals "" "") = 0%Z.
Proof.
  split; [reflexivity|].
  apply (C9_no_goals_four_recommendations "" ""). reflexivity.
Defined.

(** ** The overall recommendations *)

Lemma get_set {V : Type} (d : PyDict.dict V) (key : string) (v : V) (k : string) (default : V) :
  PyDict.get (PyDict.set d key v) k default
  = if String.eqb key k then v else PyDict.get d k default.
Proof.
  induction d as [|[k' w] rest IH]; simpl; [reflexivity|].
  destruct (String.eqb_spec k' key) as [->|Hne]; simpl.
  - now destruct (String.eqb key k).
  - destruct (String.eqb_spec k' k) as [->|Hne'].
    + destruct (String.eqb_spec key k) as [->|_]; [contradiction | reflexivity].
    + exact IH.
Qed.

Lemma count_issues_from (key : string) (all_issues : list string) :
  forall issue_counts : PyDict.dict nat,
    PyDict.get
      (fold_left
         (fun issue_counts issue =>
            PyDict.set issue_counts (issue_type issue)
                       (PyDict.get issue_counts (issue_type issue) 0 + 1))
         all_issues issue_counts)
      key 0
    = PyDict.get issue_counts key 0 + occurrences key all_issues.
Proof.
  unfold occurrences.
  induction all_issues as [|issue rest IH]; intros issue_counts; cbn [fold_left map filter].
  - simpl. lia.
  - rewrite IH, get_set. rewrite (String.eqb_sym key).
    destruct (String.eqb_spec (issue_type issue) key) as [->|_]; simpl; lia.
Qed.

Lemma count_issues_occurrences (key : string) (all_issues : list string) :
  PyDict.get (count_issues all_issues) key 0 = occurrences key all_issues.
Proof. unfold count_issues. now rewrite count_issues_from. Qed.

Lemma all_issues_concat (validated_goals : list GoalAnalysis) :
  forall all_issues : list string,
    fold_left (fun all_issues goal => (all_issues ++ issues goal)%list)
              validated_goals all_issues
    = (all_issues ++ concat (map issues validated_goals))%list.
Proof.
  induction validated_goals as [|goal rest IH]; intros all_issues; cbn [fold_left map concat].
  - now rewrite app_nil_r.
  - now rewrite IH, app_assoc.
Qed.

Lemma occurrences_app (key : string) (l1 l2 : list string) :
  occurrences key (l1 ++ l2) = occurrences key l1 + occurrences key l2.
Proof. unfold occurrences. now rewrite map_app, filter_app, length_app. Qed.

Lemma analysed_occurrences (analysis : GoalAnalysis) :
  analysed analysis ->
  occurrences "Goal lacks specificity" (issues analysis)
  = (if PyDict.get (smart_assessment analysis) "specific" true then 0 else 1)
  /\ occurrences "Goal lacks measurable success criteria" (issues analysis)
     = (if PyDict.get (smart_assessment analysis) "measurable" true then 0 else 1).
Proof.
  intros (goal_text & goal_number & ->).
  cbn [_analyze_single_goal smart_assessment issues].
  unfold tally_of, assess.
  cbn [tally_assessment tally_issues tally_recommendations tally_score].
  destruct (PrimFloat.ltb 0.4 (_check_specific goal_text)),
           (PrimFloat.ltb 0.3 (_check_measurable goal_text)),
           (PrimFloat.ltb 0.3 (_check_achievable goal_text)),
           (PrimFloat.ltb 0.3 (_check_relevant goal_text)),
           (PrimFloat.ltb 0.3 (_check_time_bound goal_text));
    split; reflexivity.
Qed.

Lemma failed_occurrences (validated_goals : list GoalAnalysis) :
  Forall analysed validated_goals ->
  occurrences "Goal lacks specificity" (concat (map issues validated_goals))
  = failed "specific" validated_goals
  /\ occurrences "Goal lacks measurable success criteria"
                 (concat (map issues validated_goals))
     = failed "measurable" validated_goals.
Proof.
  induction 1 as [|goal rest Hgoal _ [IHs IHm]]; [split; reflexivity|].
  destruct (analysed_occurrences goal Hgoal) as [Hs Hm].
  cbn [map concat]. rewrite !occurrences_app, IHs, IHm, Hs, Hm.
  unfold failed. cbn [filter].
  destruct (PyDict.get (smart_assessment goal) "specific" true),
           (PyDict.get (smart_assessment goal) "measurable" true);
    split; reflexivity.
Qed.

(** [count > n * 0.5] in floats is [n < 2 * count], for the at most ten
    goals of a report. *)
Lemma more_than_half (n count : nat) :
  n <= 10 -> count <= 10 ->
  PrimFloat.ltb (PyFloat.of_int (Z.of_nat n) * 0.5)%float
                (PyFloat.of_int (Z.of_nat count))
  = (n <? 2 * count).
Proof.
  intros Hn Hcount.
  do 11 (destruct n as [|n];
         [ do 11 (destruct count as [|count]; [vm_compute; reflexivity|]);
           exfalso; lia
         | ]).
  exfalso; lia.
Qed.

Lemma analyze_each_shape (goals : list string) :
  forall (i : nat) (validated_goals : list GoalAnalysis) (total_smart_score : Z),
  exists new_goals,
    fst (analyze_each goals i validated_goals total_smart_score)
    = (validated_goals ++ new_goals)%list
    /\ List.length new_goals = List.length goals
    /\ Forall analysed new_goals.
Proof.
  induction goals as [|goal_text rest IH]; intros i validated_goals total_smart_score.
  - exists []. cbn. rewrite app_nil_r. repeat split. constructor.
  - cbn [analyze_each].
    destruct (IH (S i) (validated_goals ++ [_analyze_single_goal goal_text (i + 1)])%list
                 (total_smart_score + smart_score (_analyze_single_goal goal_text (i + 1)))%Z)
      as [new_goals (Heq & Hlen & Hall)].
    exists (_analyze_single_goal goal_text (i + 1) :: new_goals).
    rewrite Heq, <- app_assoc. repeat split.
    + cbn. now rewrite Hlen.
    + constructor; [|exact Hall]. now exists goal_text, (i + 1).
Qed.

Lemma report_shape (now text_content : string) :
  Forall analysed (goals (validate_goals now text_content))
  /\ List.length (goals (validate_goals now text_content))
     = goals_count (validate_goals now text_content)
  /\ goals_count (validate_goals now text_content) <= 10
  /\ report_recommendations (validate_goals now text_content)
     = _generate_overall_recommendations (goals (validate_goals now text_content)).
Proof.
  unfold validate_goals.
  destruct (analyze_each_shape (_extract_goals text_content) 0 [] 0%Z)
    as [new_goals (Heq & Hlen & Hall)].
  destruct (analyze_each (_extract_goals text_content) 0 [] 0%Z) as [validated total].
  cbn [fst app] in Heq. subst validated.
  cbn [goals goals_count report_recommendations].
  repeat split; try assumption.
  apply (proj2 (extracted_goals_long text_content)).
Qed.

Lemma overall_recommendations_eq (validated_goals : list GoalAnalysis) :
  _generate_overall_recommendations validated_goals
  = firstn 6
      ((if is_common (count_issues (concat (map issues validated_goals)))
                     "Goal lacks specificity" validated_goals
        then [focus_on_specific] else [])
       ++ (if is_common (count_issues (concat (map issues validated_goals)))
                        "Goal lacks measurable success criteria" validated_goals
           then [add_metrics] else [])
       ++ (if is_common (count_issues (concat (map issues validated_goals)))
                        "Goal lacks clear timeline" validated_goals
           then ["Establish clear deadlines and milestones for all goals"] else [])
       ++ (if is_common (count_issues (concat (map issues validated_goals)))
                        "Goal lacks clear business relevance" validated_goals
           then ["Clearly articulate business value and impact for each goal"]
           else [])
       ++ general_recommendations)%list.
Proof.
  unfold _generate_overall_recommendations.
  rewrite all_issues_concat. cbn [app].
  set (issue_counts := count_issues (concat (map issues validated_goals))).
  destruct (is_common issue_counts "Goal lacks specificity" validated_goals),
           (is_common issue_counts "Goal lacks measurable success criteria" validated_goals),
           (is_common issue_counts "Goal lacks clear timeline" validated_goals),
           (is_common issue_counts "Goal lacks clear business relevance" validated_goals);
    reflexivity.
Qed.

(** C2, as stated, fails on the achievable dimension, which has no
    targeted recommendation: the one goal of [unrealistic_goal] fails it (and
    only it), and the report has the four general recommendations alone. *)
Lemma C2_achievable_counterexample :
  goals_count (validate_goals "" unrealistic_goal) = 1
  /\ map (fun goal => failing (smart_assessment goal))
         (goals (validate_goals "" unrealistic_goal)) = [["achievable"]]
  /\ failed "achievable" (goals (validate_goals "" unrealistic_goal)) = 1
  /\ report_recommendations (validate_goals "" unrealistic_goal) = general_recommendations
  /\ List.length (report_recommendations (validate_goals "" unrealistic_goal)) = 4.
Proof. repeat split; vm_compute; reflexivity. Qed.

(** The checks for the time-bound and the relevance recommendations look up
    "Goal lacks clear timeline" and "Goal lacks clear business relevance",
    while the issues are counted under their full texts ("... or deadline",
    "... or value"): the one goal of [perfect_goal] fails both dimensions and
    the report has the general recommendations after the two targeted ones
    for specific and measurable. *)
Example timeline_and_relevance_not_reported :
  map (fun goal => failing (smart_assessment goal))
      (goals (validate_goals "" perfect_goal))
  = [["specific"; "measurable"; "relevant"; "time_bound"]]
  /\ report_recommendations (validate_goals "" perfect_goal)
     = (focus_on_specific :: add_metrics :: general_recommendations).
Proof. split; vm_compute; reflexivity. Qed.

(** C2, amended. In the report of every document the recommendations are
    the first six of a list of targeted recommendations followed by the four
    general ones.  The targeted recommendation for specific is there exactly
    when strictly more than half of the goals fail specific, and that for
    measurable exactly when strictly more than half fail measurable; each
    targeted entry occurs once and is one of the four targeted texts, none of
    which is for achievable. *)
Theorem C2_overall_recommendations (now text_content : string) :
  exists targeted : list string,
    report_recommendations (validate_goals now text_content)
    = firstn 6 (targeted ++ general_recommendations)
    /\ (In focus_on_specific targeted
        <-> goals_count (validate_goals now text_content)
            < 2 * failed "specific" (goals (validate_goals now text_content)))
    /\ (In add_metrics targeted
        <-> goals_count (validate_goals now text_content)
            < 2 * failed "measurable" (goals (validate_goals now text_content)))
    /\ incl targeted targeted_recommendations
    /\ NoDup targeted
    /\ List.length general_recommendations = 4
    /\ List.length (report_recommendations (validate_goals now text_content)) <= 6.
Proof.
  destruct (report_shape now text_content) as (Hall & Hlen & Hten & ->).
  set (validated := goals (validate_goals now text_content)) in *.
  rewrite <- Hlen in *. clearbody validated. clear Hlen.
  destruct (failed_occurrences validated Hall) as [Hs Hm].
  assert (Hfs : failed "specific" validated <= 10)
    by (unfold failed; etransitivity; [apply filter_length_le | exact Hten]).
  assert (Hfm : failed "measurable" validated <= 10)
    by (unfold failed; etransitivity; [apply filter_length_le | exact Hten]).
  rewrite overall_recommendations_eq.
  unfold is_common at 1 2.
  rewrite !count_issues_occurrences, Hs, Hm, !more_than_half by assumption.
  generalize (is_common (count_issues (concat (map issues validated)))
                        "Goal lacks clear timeline" validated).
  generalize (is_common (count_issues (concat (map issues validated)))
                        "Goal lacks clear business relevance" validated).
  intros relevance timeline.
  exists ((if List.length validated <? 2 * failed "specific" validated
           then [focus_on_specific] else [])
          ++ (if List.length validated <? 2 * failed "measurable" validated
              then [add_metrics] else [])
          ++ (if timeline
              then ["Establish clear deadlines and milestones for all goals"] else [])
          ++ (if relevance
              then ["Clearly articulate business value and impact for each goal"]
              else []))%list.
  destruct (Nat.ltb_spec (List.length validated) (2 * failed "specific" validated)),
           (Nat.ltb_spec (List.length validated) (2 * failed "measurable" validated)),
           timeline, relevance;
    (split; [rewrite <- !app_assoc; reflexivity|]);
    (split; [cbn; unfold focus_on_specific, add_metrics; split; intros;
             first [lia | intuition discriminate | tauto]|]);
    (split; [cbn; unfold focus_on_specific, add_metrics; split; intros;
             first [lia | intuition discriminate | tauto]|]);
    (split; [unfold targeted_recommendations; intros x Hx; cbn in Hx |- *; tauto|]);
    (split; [unfold focus_on_specific, add_metrics; cbn;
             repeat (apply NoDup_cons; [cbn; intuition discriminate|]);
             apply NoDup_nil|]);
    (split; [reflexivity | apply firstn_le_length]).
Qed.

(** ** The range of the scores *)

Section Ranges.
Import ScoreValues.

Lemma fmem_In (x : float) (l : list float) : fmem x l = true -> In x l.
Proof.
  unfold fmem. rewrite existsb_exists. intros (y & Hy & E).
  apply Leibniz.eqb_spec in E. now subst.
Qed.

Lemma In_dedupe (x : float) (l : list float) : In x l -> In x (dedupe l).
Proof.
  induction l as [|a l IH]; cbn [dedupe]; [easy|]. cbv zeta. intros [->|H].
  - destruct (fmem x (dedupe l)) eqn:E; [now apply fmem_In | now left].
  - destruct (fmem a (dedupe l)); [auto | right; auto].
Qed.

Lemma iter_values_sound (n : nat) (step : float -> float) (l : list float)
  (x : float) (k : nat) :
  In x l -> k <= n -> In (Nat.iter k step x) (iter_values n step l).
Proof.
  intros Hx Hk. unfold iter_values. apply in_flat_map. exists x. split; [assumption|].
  apply in_map_iff. exists k. split; [reflexivity|]. apply in_seq. lia.
Qed.

Lemma cond_values_sound (step : float -> float) (l : list float) (x : float) (b : bool) :
  In x l -> In (if b then step x else x) (cond_values step l).
Proof.
  intros Hx. unfold cond_values. apply in_or_app.
  destruct b; [right; now apply in_map | now left].
Qed.

Lemma add_scaled_sound (totals values : list float) (total score : float) :
  In total totals -> In score values ->
  In (total + score * 20)%float (add_scaled totals values).
Proof.
  intros Ht Hs. unfold add_scaled. apply In_dedupe, in_flat_map.
  exists total. split; [assumption|].
  now apply (in_map (fun score => total + score * 20)%float).
Qed.

(** A loop that takes the same step at every hit takes it as often as there
    are hits. *)
Lemma fold_hits {A : Type} (p : A -> bool) (step : float -> float) (l : list A) :
  forall score : float,
    fold_left (fun sc x => if p x then step sc else sc) l score
    = Nat.iter (List.length (filter p l)) step score.
Proof.
  induction l as [|a l IH]; intros score; cbn [fold_left filter]; [reflexivity|].
  rewrite IH. destruct (p a); [cbn [List.length]; now rewrite Nat.iter_succ_r | reflexivity].
Qed.

Lemma check_specific_in (goal_text : string) :
  In (_check_specific goal_text) specific_values.
Proof.
  unfold _check_specific, for_each_word, specific_values. cbv zeta. rewrite !fold_hits.
  apply In_dedupe, in_map.
  apply (cond_values_sound (fun sc => sc + 0.2)%float).
  apply iter_values_sound; [|apply filter_length_le].
  apply iter_values_sound; [now left | apply filter_length_le].
Qed.

Lemma check_measurable_in (goal_text : string) :
  In (_check_measurable goal_text) measurable_values.
Proof.
  unfold _check_measurable, for_each_word, for_each_pattern, measurable_values.
  cbv zeta. rewrite !fold_hits.
  apply In_dedupe, in_map.
  apply (cond_values_sound (fun sc => sc + 0.3)%float).
  apply iter_values_sound; [|apply filter_length_le].
  apply iter_values_sound; [now left | apply filter_length_le].
Qed.

Lemma check_achievable_in (goal_text : string) :
  In (_check_achievable goal_text) achievable_values.
Proof.
  unfold _check_achievable, for_each_word, achievable_values.
  cbv zeta. rewrite !fold_hits.
  apply In_dedupe, in_map.
  apply iter_values_sound; [|apply filter_length_le].
  apply iter_values_sound; [now left | apply filter_length_le].
Qed.

Lemma check_relevant_in (goal_text : string) :
  In (_check_relevant goal_text) relevant_values.
Proof.
  unfold _check_relevant, for_each_word, relevant_values.
  cbv zeta. rewrite !fold_hits.
  apply In_dedupe, in_map.
  apply iter_values_sound; [|apply filter_length_le].
  apply (cond_values_sound (fun sc => sc + 0.3)%float).
  apply iter_values_sound; [now left | apply filter_length_le].
Qed.

Lemma check_time_bound_in (goal_text : string) :
  In (_check_time_bound goal_text) time_bound_values.
Proof.
  unfold _check_time_bound, for_each_word, for_each_pattern, time_bound_values.
  cbv zeta. rewrite !fold_hits.
  apply In_dedupe, in_map.
  apply (cond_values_sound (fun sc => sc + 0.3)%float).
  apply iter_values_sound; [|apply filter_length_le].
  apply iter_values_sound; [now left | apply filter_length_le].
Qed.

Lemma tally_score_in (goal_text : string) :
  In (tally_score (tally_of goal_text)) totals.
Proof.
  unfold tally_of, assess, totals. cbn [tally_score].
  apply add_scaled_sound; [|exact (check_time_bound_in goal_text)].
  apply add_scaled_sound; [|exact (check_relevant_in goal_text)].
  apply add_scaled_sound; [|exact (check_achievable_in goal_text)].
  apply add_scaled_sound; [|exact (check_measurable_in goal_text)].
  apply add_scaled_sound; [|exact (check_specific_in goal_text)].
  left. reflexivity.
Qed.

Lemma values_in_unit_interval :
  forallb in_unit_interval
    (specific_values ++ measurable_values ++ achievable_values
     ++ relevant_values ++ time_bound_values) = true.
Proof. vm_compute. reflexivity. Qed.

Lemma totals_in_range :
  forallb (fun total => (0 <=? to_int total)%Z && (to_int total <=? 100)%Z) totals = true.
Proof. vm_compute. reflexivity. Qed.

(** Every raw score is clamped to the interval from 0 to 1. *)
Lemma raw_scores_clamped (goal_text : string) :
  Forall (fun score => in_unit_interval score = true)
         [ _check_specific goal_text; _check_measurable goal_text;
           _check_achievable goal_text; _check_relevant goal_text;
           _check_time_bound goal_text ].
Proof.
  pose proof (proj1 (forallb_forall _ _) values_in_unit_interval) as H.
  repeat apply Forall_cons; [| | | | |apply Forall_nil]; apply H; rewrite !in_app_iff.
  - left. exact (check_specific_in goal_text).
  - right. left. exact (check_measurable_in goal_text).
  - right. right. left. exact (check_achievable_in goal_text).
  - right. right. right. left. exact (check_relevant_in goal_text).
  - right. right. right. right. exact (check_time_bound_in goal_text).
Qed.

(** The score of every goal is an integer from 0 to 100. *)
Lemma smart_score_in_range (goal_text : string) (goal_number : nat) :
  (0 <= smart_score (_analyze_single_goal goal_text goal_number) <= 100)%Z.
Proof.
  cbn [_analyze_single_goal smart_score].
  pose proof (proj1 (forallb_forall _ _) totals_in_range _ (tally_score_in goal_text)) as H.
  apply andb_prop in H. destruct H as [Hlo Hhi].
  apply Z.leb_le in Hlo, Hhi. now split.
Qed.

End Ranges.

End GoalValidatorFacts.

(** * More properties of the epic generator *)

Module GenerationFacts.
Import PyStr EpicGenerator EpicClosedForm Spec EpicGeneratorFacts.

Section Run.

Variable entropy : nat -> N.
Variable now : string.

Lemma epic_from_goal_eq (goal : Goal) (draws : nat) :
  _generate_epic_from_goal entropy goal draws = Ok (head_of entropy goal draws, S draws).
Proof. reflexivity. Qed.

Lemma features_for_epic_eq (epic : EpicHead) (goal : Goal) (draws : nat) :
  _generate_features_for_epic entropy epic goal draws
  = Ok (features_of entropy epic draws, 5 + draws).
Proof.
  cbv -[decimal_N N.add N.modulo N.sub _suggest_team_assignment append Nat.add].
  reflexivity.
Qed.

Lemma goals_loop_eq (goals : list Goal) :
  forall (generated_epics : list Epic) (all_features : list Feature) (draws : nat),
    goals_loop entropy goals generated_epics all_features draws
    = Ok ((generated_epics ++ epics_of entropy goals draws,
           all_features ++ concat (map features (epics_of entropy goals draws)))%list,
          6 * List.length goals + draws).
Proof.
  induction goals as [|goal rest IH]; intros generated_epics all_features draws.
  - cbn. now rewrite !app_nil_r.
  - cbn [goals_loop].
    rewrite (bind_ok _ _ _ _ _ (epic_from_goal_eq goal draws)).
    rewrite (bind_ok _ _ _ _ _
               (features_for_epic_eq (head_of entropy goal draws) goal (S draws))).
    rewrite IH. cbn [epics_of map concat features epic_of List.length].
    rewrite <- !app_assoc. cbn [app]. do 2 f_equal. lia.
Qed.

Lemma generate_eq (goals : list Goal) (draws : nat) :
  generate_epics_and_features entropy now goals draws
  = Ok ({| epics := epics_of entropy goals draws;
           all_features := concat (map features (epics_of entropy goals draws));
           team_assignments :=
             _assign_teams_to_features
               (concat (map features (epics_of entropy goals draws)));
           summary :=
             {| total_epics := List.length (epics_of entropy goals draws);
                total_features :=
                  List.length (concat (map features (epics_of entropy goals draws)));
                total_effort_points :=
                  list_sum (map total_effort (epics_of entropy goals draws));
                estimated_weeks :=
                  Nat.max 1 (list_sum (map total_effort (epics_of entropy goals draws)) / 20);
                teams_involved :=
                  List.length
                    (_assign_teams_to_features
                       (concat (map features (epics_of entropy goals draws)))) |};
           generated_at := now |},
        6 * List.length goals + draws).
Proof.
  unfold generate_epics_and_features.
  rewrite (bind_ok _ _ _ _ _ (goals_loop_eq goals [] [] draws)). reflexivity.
Qed.

(** ** Counts, sums and order *)

Lemma epics_of_length (goals : list Goal) :
  forall draws, List.length (epics_of entropy goals draws) = List.length goals.
Proof. induction goals as [|goal rest IH]; intros draws; cbn; [reflexivity | now rewrite IH]. Qed.

Lemma features_of_epics_length (goals : list Goal) :
  forall draws,
    List.length (concat (map features (epics_of entropy goals draws)))
    = 5 * List.length goals.
Proof.
  induction goals as [|goal rest IH]; intros draws; [reflexivity|].
  cbn [epics_of map concat]. rewrite length_app, IH. cbn. lia.
Qed.

Lemma effort_of_epics (goals : list Goal) :
  forall draws,
    list_sum (map total_effort (epics_of entropy goals draws)) = 16 * List.length goals.
Proof.
  induction goals as [|goal rest IH]; intros draws; [reflexivity|].
  cbn [epics_of map].
  change (total_effort (epic_of entropy goal draws)
          + list_sum (map total_effort (epics_of entropy rest (6 + draws)))
          = 16 * List.length (goal :: rest)).
  rewrite IH. cbn. lia.
Qed.

(** A run on [n] goals raises nothing, makes six draws for each goal and
    reports [n] epics, [5 n] features, [16 n] effort points and
    [max(1, 16 n // 20)] weeks; the flat feature list is that of the epics,
    in their order. *)
Theorem summary_counts (goals : list Goal) (draws : nat) :
  exists result,
    generate_epics_and_features entropy now goals draws
    = Ok (result, 6 * List.length goals + draws)
    /\ List.length (epics result) = List.length goals
    /\ total_epics (summary result) = List.length goals
    /\ all_features result = concat (map features (epics result))
    /\ total_features (summary result) = 5 * List.length goals
    /\ total_effort_points (summary result) = 16 * List.length goals
    /\ estimated_weeks (summary result) = Nat.max 1 (16 * List.length goals / 20).
Proof.
  eexists. split; [apply generate_eq|].
  cbn [epics all_features summary total_epics total_features total_effort_points
       estimated_weeks].
  rewrite epics_of_length, features_of_epics_length, effort_of_epics.
  repeat split.
Qed.

Lemma epics_of_follow (goals : list Goal) :
  forall draws,
    Forall2
      (fun goal epic =>
         original_goal (head epic) = text_of goal
         /\ priority (head epic) = PyDict.get goal "priority" "Medium"
         /\ category (head epic) = PyDict.get goal "category" "Business"
         /\ status (head epic) = "To Do"
         /\ Forall (fun feature =>
                      epic_id feature = id (head epic)
                      /\ feature_priority feature = priority (head epic)
                      /\ feature_status feature = "To Do")
                   (features epic))
      goals (epics_of entropy goals draws).
Proof.
  induction goals as [|goal rest IH]; intros draws; cbn [epics_of]; constructor.
  - cbn. repeat split. repeat constructor.
  - apply IH.
Qed.

(** The epics of a run follow the goals one for one, in their order: each
    epic keeps the text of its goal, its priority (Medium when the goal has
    none) and its category (Business when it has none) and starts in the
    status To Do; each of its features refers to it by its identifier, has
    its priority and starts in the status To Do. *)
Theorem epics_follow_goals (goals : list Goal) (draws : nat) :
  exists result draws',
    generate_epics_and_features entropy now goals draws = Ok (result, draws')
    /\ Forall2
         (fun goal epic =>
            original_goal (head epic) = text_of goal
            /\ priority (head epic) = PyDict.get goal "priority" "Medium"
            /\ category (head epic) = PyDict.get goal "category" "Business"
            /\ status (head epic) = "To Do"
            /\ Forall (fun feature =>
                         epic_id feature = id (head epic)
                         /\ feature_priority feature = priority (head epic)
                         /\ feature_status feature = "To Do")
                      (features epic))
         goals (epics result).
Proof.
  eexists. eexists. split; [apply generate_eq|]. cbn [epics]. apply epics_of_follow.
Qed.

Lemma epics_of_forall (P : Epic -> Prop) :
  (forall goal draws, P (epic_of entropy goal draws)) ->
  forall goals draws, Forall P (epics_of entropy goals draws).
Proof.
  intros HP goals. induction goals as [|goal rest IH]; intros draws; cbn [epics_of];
    constructor; auto.
Qed.

(** ** The lengths of the title and of the description *)

Lemma length_append (a b : string) :
  String.length (a ++ b) = String.length a + String.length b.
Proof. induction a as [|c a IH]; cbn; [reflexivity | now rewrite IH]. Qed.








(** ** The identifiers *)

Lemma four_digits_from_1000 :
  forallb (fun k => four_digits (decimal_N (1000 + N.of_nat k)))
          (List.seq 0 (90 * 100)) = true.
Proof. vm_compute. reflexivity. Qed.

Lemma four_digits_drawn (i : nat) : four_digits (decimal_N (drawn entropy i)) = true.
Proof.
  unfold drawn. change (9999 - 1000 + 1)%N with 9000%N.
  assert (Hlt : (entropy i mod 9000 < 9000)%N) by (apply N.mod_lt; discriminate).
  generalize dependent (entropy i mod 9000)%N. intros k Hlt.
  rewrite <- (N2Nat.id k).
  apply (proj1 (forallb_forall _ _) four_digits_from_1000).
  apply in_seq. lia.
Qed.

(** Every identifier of a run is EPIC- or FEAT- followed by four decimal
    digits. *)
Theorem identifiers_format (goals : list Goal) (draws : nat) :
  exists result draws',
    generate_epics_and_features entropy now goals draws = Ok (result, draws')
    /\ Forall
         (fun epic =>
            (exists digits,
                id (head epic) = "EPIC-" ++ digits /\ four_digits digits = true)
            /\ Forall (fun feature =>
                         exists digits,
                           feature_id feature = "FEAT-" ++ digits
                           /\ four_digits digits = true)
                      (features epic))
         (epics result).
Proof.
  eexists. eexists. split; [apply generate_eq|]. cbn [epics].
  apply epics_of_forall. intros goal d. split.
  - eexists. split; [reflexivity | apply four_digits_drawn].
  - cbn [epic_of features]. unfold features_of. cbn [List.seq combine map].
    repeat constructor; (eexists; split; [reflexivity | apply four_digits_drawn]).
Qed.

End Run.

(** The identifiers of a run need not differ: when two draws for the
    features of one epic agree modulo 9000, two features get the same
    identifier. *)
Theorem identifiers_may_repeat (entropy : nat -> N) (now : string) (goal : Goal) (draws : nat) :
  (entropy (1 + draws)%nat mod 9000 = entropy (2 + draws)%nat mod 9000)%N ->
  exists result draws',
    generate_epics_and_features entropy now [goal] draws = Ok (result, draws')
    /\ ~ NoDup (map feature_id (all_features result)).
Proof.
  intros Hsame. eexists. eexists. split; [apply generate_eq|].
  cbn [all_features epics_of map concat epic_of features].
  unfold features_of, _get_feature_templates.
  cbn [List.seq combine map app fst snd feature_of feature_id].
  unfold drawn. change (9999 - 1000 + 1)%N with 9000%N.
  change (0 + S draws) with (1 + draws). change (1 + S draws) with (2 + draws).
  rewrite Hsame. intros Hnodup. inversion Hnodup as [|x l Hnotin _]; subst.
  apply Hnotin. now left.
Qed.

(** [identifiers_may_repeat] under an entropy source that always gives 0. *)
Lemma identifiers_may_repeat_witness :
  ((fun _ : nat => 0) (1 + 0)%nat mod 9000 = (fun _ : nat => 0) (2 + 0)%nat mod 9000)%N
  /\ exists result draws',
      generate_epics_and_features (fun _ => 0%N) "" [dashboard_goal] 0 = Ok (result, draws')
      /\ ~ NoDup (map feature_id (all_features result)).
Proof.
  split; [reflexivity|].
  apply (identifiers_may_repeat (fun _ => 0%N) "" dashboard_goal 0). reflexivity.
Defined.

(** ** The team map of any list of features *)

Lemma assign_teams_fold (features : list Feature) :
  _assign_teams_to_features features = fold_left assign_step features [].
Proof. reflexivity. Qed.

Lemma get_absent {V : Type} (d : PyDict.dict V) (key : string) (default : V) :
  PyDict.mem d key = false -> PyDict.get d key default = default.
Proof.
  induction d as [|[k v] rest IH]; cbn; [reflexivity|].
  destruct (String.eqb k key); cbn; [discriminate | exact IH].
Qed.

Lemma titles_in_cons (key : string) (titles : list string)
  (rest : PyDict.dict (list string)) :
  titles_in ((key, titles) :: rest) = List.length titles + titles_in rest.
Proof. reflexivity. Qed.

Lemma titles_in_set_absent (d : PyDict.dict (list string)) (key : string) :
  PyDict.mem d key = false ->
  titles_in (PyDict.set d key []) = titles_in d.
Proof.
  induction d as [|[k v] rest IH]; cbn [PyDict.set PyDict.mem]; [reflexivity|].
  destruct (String.eqb k key); cbn [orb]; [discriminate|].
  intros Habsent. now rewrite !titles_in_cons, IH.
Qed.

Lemma titles_in_append (d : PyDict.dict (list string)) (key x : string) :
  titles_in (PyDict.set d key (PyDict.get d key [] ++ [x])%list) = S (titles_in d).
Proof.
  induction d as [|[k v] rest IH]; cbn [PyDict.set PyDict.get].
  - reflexivity.
  - destruct (String.eqb k key); rewrite !titles_in_cons.
    + rewrite length_app. cbn [List.length]. lia.
    + rewrite IH. lia.
Qed.

Lemma get_step_same (d : PyDict.dict (list string)) (feature : Feature) :
  PyDict.get (assign_step d feature) (assigned_team feature) []
  = (PyDict.get d (assigned_team feature) [] ++ [feature_title feature])%list.
Proof.
  unfold assign_step. cbv zeta.
  rewrite GoalValidatorFacts.get_set, String.eqb_refl.
  destruct (PyDict.mem d (assigned_team feature)) eqn:E; cbn [negb]; [reflexivity|].
  rewrite GoalValidatorFacts.get_set, String.eqb_refl.
  now rewrite (get_absent _ _ _ E).
Qed.

Lemma get_step_other (d : PyDict.dict (list string)) (feature : Feature) (key : string) :
  assigned_team feature <> key ->
  PyDict.get (assign_step d feature) key [] = PyDict.get d key [].
Proof.
  intros Hne. apply String.eqb_neq in Hne.
  unfold assign_step. cbv zeta. rewrite GoalValidatorFacts.get_set, Hne.
  destruct (PyDict.mem d (assigned_team feature)); cbn [negb]; [reflexivity|].
  now rewrite GoalValidatorFacts.get_set, Hne.
Qed.

Lemma get_step_grows (d : PyDict.dict (list string)) (feature : Feature) (key x : string) :
  In x (PyDict.get d key []) -> In x (PyDict.get (assign_step d feature) key []).
Proof.
  intros Hx. destruct (String.eqb_spec (assigned_team feature) key) as [<-|Hne].
  - rewrite get_step_same. apply in_or_app. now left.
  - now rewrite get_step_other.
Qed.

Lemma get_fold_grows (features : list Feature) (key x : string) :
  forall d, In x (PyDict.get d key []) ->
            In x (PyDict.get (fold_left assign_step features d) key []).
Proof.
  induction features as [|f rest IH]; intros d Hx; [exact Hx|].
  cbn [fold_left]. apply IH. now apply get_step_grows.
Qed.

Lemma titles_in_fold (features : list Feature) :
  forall d, titles_in (fold_left assign_step features d)
            = List.length features + titles_in d.
Proof.
  induction features as [|f rest IH]; intros d; [reflexivity|].
  cbn [fold_left List.length]. rewrite IH. unfold assign_step. cbv zeta.
  rewrite titles_in_append.
  destruct (PyDict.mem d (assigned_team f)) eqn:E; cbn [negb];
    [|rewrite (titles_in_set_absent _ _ E)]; lia.
Qed.

Lemma nodup_snoc {A : Type} (l : list A) (x : A) :
  NoDup l -> ~ In x l -> NoDup (l ++ [x]).
Proof.
  induction 1 as [|a l Ha Hl IH]; intros Hx; cbn.
  - constructor; [easy | constructor].
  - constructor.
    + rewrite in_app_iff. intros [H|[H|[]]]; [now apply Ha | subst; apply Hx; now left].
    + apply IH. intros H. apply Hx. now right.
Qed.

Lemma add_key_spec (keys : list string) (team : string) :
  (NoDup keys -> NoDup (add_key keys team))
  /\ (forall k, In k (add_key keys team) <-> In k keys \/ k = team).
Proof.
  unfold add_key. destruct (existsb (fun k => String.eqb k team) keys) eqn:E.
  - apply existsb_exists in E. destruct E as (k' & Hk' & Heq).
    apply String.eqb_eq in Heq. subst k'. split; [auto|].
    intros k. split; [auto | intros [H| ->]; assumption].
  - split.
    + intros Hnodup. apply nodup_snoc; [assumption|]. intros Hin.
      assert (existsb (fun k => String.eqb k team) keys = true) as Htrue
        by (apply existsb_exists; exists team; split; [assumption | apply String.eqb_refl]).
      congruence.
    + intros k. rewrite in_app_iff. cbn. intuition.
Qed.

Lemma add_key_fold (teams : list string) :
  forall keys,
    (NoDup keys -> NoDup (fold_left add_key teams keys))
    /\ (forall k, In k (fold_left add_key teams keys) <-> In k keys \/ In k teams).
Proof.
  induction teams as [|team rest IH]; intros keys; cbn [fold_left].
  - split; [auto|]. intros k. cbn. tauto.
  - destruct (IH (add_key keys team)) as [Hnodup Hin].
    destruct (add_key_spec keys team) as [Hnodup' Hin']. split; [auto|].
    intros k. rewrite Hin, Hin'. cbn. intuition.
Qed.

(** Whatever the features, the team map has each team once, each feature's
    title in the list of the team the feature is assigned to, exactly the
    teams of the features as keys, and as many titles in all as there are
    features. *)
Theorem team_map_partition (features : list Feature) :
  NoDup (PyDict.keys (_assign_teams_to_features features))
  /\ (forall team,
        In team (PyDict.keys (_assign_teams_to_features features))
        <-> In team (map assigned_team features))
  /\ (forall feature,
        In feature features ->
        In (feature_title feature)
           (PyDict.get (_assign_teams_to_features features) (assigned_team feature) []))
  /\ titles_in (_assign_teams_to_features features) = List.length features.
Proof.
  split; [|split; [|split]].
  - unfold _assign_teams_to_features. rewrite assign_teams_keys.
    apply (add_key_fold (map assigned_team features) []). constructor.
  - intros team. unfold _assign_teams_to_features. rewrite assign_teams_keys.
    rewrite (proj2 (add_key_fold (map assigned_team features) []) team). cbn. tauto.
  - rewrite assign_teams_fold. generalize (@nil (string * list string)).
    induction features as [|f rest IH]; intros d feature Hin; [contradiction|].
    cbn [fold_left]. destruct Hin as [<-|Hin].
    + apply get_fold_grows. rewrite get_step_same. apply in_or_app. right. now left.
    + now apply IH.
  - rewrite assign_teams_fold, titles_in_fold. cbn. lia.
Qed.

(** ** The team of a title *)

Lemma lower_char_idempotent (c : ascii) : lower_char (lower_char c) = lower_char c.
Proof. destruct c as [[] [] [] [] [] [] [] []]; reflexivity. Qed.

Lemma lower_idempotent (s : string) : lower (lower s) = lower s.
Proof.
  induction s as [|c s IH]; cbn; [reflexivity|].
  now rewrite lower_char_idempotent, IH.
Qed.

(** The team of a title is always one of the six declared teams, and the
    case of the letters of the title does not matter. *)
Theorem team_is_declared (feature_title : string) :
  In (_suggest_team_assignment feature_title) (PyDict.keys team_categories)
  /\ _suggest_team_assignment (lower feature_title)
     = _suggest_team_assignment feature_title.
Proof.
  split.
  - rewrite suggest_is_first_matching. unfold first_matching_team.
    destruct (find (team_matches (lower feature_title)) team_categories)
      as [[team keywords]|] eqn:E.
    + apply find_some in E. destruct E as [Hin _].
      now apply (in_map fst) in Hin.
    + cbn. tauto.
  - unfold _suggest_team_assignment. cbv zeta. now rewrite lower_idempotent.
Qed.

(** A title that holds "security" never goes to the Security team: DevOps
    lists the keyword too and comes first, so the title goes to Frontend,
    Backend or DevOps. *)
Theorem security_goes_to_devops (feature_title : string) :
  contains "security" (lower feature_title) = true ->
  In (_suggest_team_assignment feature_title) ["Frontend"; "Backend"; "DevOps"]
  /\ _suggest_team_assignment feature_title <> "Security".
Proof.
  intros Hsec.
  assert (Hin : In (_suggest_team_assignment feature_title)
                   ["Frontend"; "Backend"; "DevOps"]).
  { rewrite suggest_is_first_matching. unfold first_matching_team, team_categories.
    cbn [find].
    destruct (team_matches (lower feature_title) ("Frontend", _)); [now left|].
    destruct (team_matches (lower feature_title) ("Backend", _)); [right; now left|].
    assert (Hdevops : team_matches (lower feature_title)
                        ("DevOps", ["deployment"; "infrastructure"; "CI/CD";
                                    "monitoring"; "security"]) = true).
    { unfold team_matches. cbn [snd existsb].
      change (lower "security") with "security". rewrite Hsec.
      now rewrite !orb_true_r. }
    rewrite Hdevops. right. right. now left. }
  split; [exact Hin|].
  intros Heq. rewrite Heq in Hin. cbn in Hin.
  destruct Hin as [H|[H|[H|[]]]]; discriminate H.
Qed.

(** [security_goes_to_devops] at the title "Security audit". *)
Lemma security_goes_to_devops_witness :
  contains "security" (lower "Security audit") = true
  /\ In (_suggest_team_assignment "Security audit") ["Frontend"; "Backend"; "DevOps"]
  /\ _suggest_team_assignment "Security audit" <> "Security".
Proof.
  split; [reflexivity|]. apply (security_goes_to_devops "Security audit"). reflexivity.
Defined.

End GenerationFacts.

(** * More properties of the goal validator *)

Module ReportFacts.
Import PyStr PyRe PyFloat GoalValidator ReportClosedForm Spec GoalValidatorFacts.

(** ** The goals of a report *)

Lemma analyze_each_eq (goals : list string) :
  forall (i : nat) (validated_goals : list GoalAnalysis) (total_smart_score : Z),
    analyze_each goals i validated_goals total_smart_score
    = ((validated_goals ++ analyses_from goals i)%list,
       (total_smart_score + total_score (analyses_from goals i))%Z).
Proof.
  induction goals as [|goal_text rest IH]; intros i validated_goals total_smart_score.
  - cbn. now rewrite app_nil_r, Z.add_0_r.
  - cbn [analyze_each analyses_from]. rewrite IH, <- app_assoc.
    unfold total_score. cbn [map fold_right app]. f_equal. lia.
Qed.

Lemma analyses_from_texts (goals : list string) :
  forall i, map original_text (analyses_from goals i) = goals.
Proof.
  induction goals as [|goal_text rest IH]; intros i; cbn [analyses_from map];
    [reflexivity|]. now rewrite IH.
Qed.

Lemma analyses_from_analysed (goals : list string) :
  forall i, Forall analysed (analyses_from goals i).
Proof.
  induction goals as [|goal_text rest IH]; intros i; cbn [analyses_from];
    constructor; [now exists goal_text, (i + 1) | apply IH].
Qed.

Lemma report_eq (now text_content : string) :
  validate_goals now text_content
  = let goals := _extract_goals text_content in
    let validated_goals := analyses_from goals 0 in
    let overall_smart_score :=
      if negb (is_nil goals)
      then to_int (PyFloat.of_int (total_score validated_goals)
                   / PyFloat.of_int (Z.of_nat (List.length goals)))%float
      else 0%Z in
    {| report_original_text := text_content;
       goals_count := List.length goals;
       goals := validated_goals;
       report_smart_score := overall_smart_score;
       quality_level := _determine_quality_level overall_smart_score;
       report_recommendations := _generate_overall_recommendations validated_goals;
       processed_at := now |}.
Proof. unfold validate_goals. now rewrite analyze_each_eq. Qed.

(** The goals of a report are the analyses of the goals that segmentation
    returns, in their order: their count is the reported count, at most 10,
    and the text of each is longer than 20 characters. *)
Theorem report_goals_are_extracted (now text_content : string) :
  map original_text (goals (validate_goals now text_content))
  = _extract_goals text_content
  /\ goals_count (validate_goals now text_content)
     = List.length (goals (validate_goals now text_content))
  /\ goals_count (validate_goals now text_content) <= 10
  /\ Forall (fun goal => 20 < String.length (original_text goal))
            (goals (validate_goals now text_content)).
Proof.
  rewrite report_eq. cbv zeta. cbn [goals goals_count].
  destruct (extracted_goals_long text_content) as [Hlong Hten].
  split; [apply analyses_from_texts|].
  split; [now rewrite <- (length_map original_text), analyses_from_texts|].
  split; [exact Hten|].
  rewrite <- (analyses_from_texts (_extract_goals text_content) 0) in Hlong.
  now rewrite Forall_map in Hlong.
Qed.

(** ** The score of a report *)

Lemma mean_exact_table :
  forallb
    (fun n =>
       forallb
         (fun total =>
            (to_int (PyFloat.of_int (Z.of_nat total) / PyFloat.of_int (Z.of_nat n))%float
             =? Z.of_nat total / Z.of_nat n)%Z)
         (List.seq 0 (100 * n + 1)))
    (List.seq 1 10) = true.
Proof. vm_compute. reflexivity. Qed.

(** [int(total / n)] in floats is the integer quotient, for the at most ten
    goals of a report and their scores. *)
Lemma mean_exact (n : nat) (total : Z) :
  1 <= n <= 10 -> (0 <= total <= 100 * Z.of_nat n)%Z ->
  to_int (PyFloat.of_int total / PyFloat.of_int (Z.of_nat n))%float
  = (total / Z.of_nat n)%Z.
Proof.
  intros Hn Htotal.
  pose proof (proj1 (forallb_forall _ _) mean_exact_table n) as Hrow.
  cbv beta in Hrow.
  assert (Hin : In n (List.seq 1 10)) by (apply in_seq; lia).
  specialize (Hrow Hin).
  pose proof (proj1 (forallb_forall _ _) Hrow (Z.to_nat total)) as Hcell.
  cbv beta in Hcell.
  assert (Hin' : In (Z.to_nat total) (List.seq 0 (100 * n + 1))) by (apply in_seq; lia).
  specialize (Hcell Hin').
  rewrite Z2Nat.id in Hcell by lia.
  now apply Z.eqb_eq in Hcell.
Qed.

Lemma total_score_bounds (validated_goals : list GoalAnalysis) :
  Forall analysed validated_goals ->
  (0 <= total_score validated_goals
   <= 100 * Z.of_nat (List.length validated_goals))%Z.
Proof.
  unfold total_score.
  induction 1 as [|goal rest (goal_text & goal_number & ->) _ IH].
  - cbn. lia.
  - cbn [map fold_right List.length].
    pose proof (smart_score_in_range goal_text goal_number). lia.
Qed.

(** The score of a report is the integer part of the mean of the scores of
    its goals, and 0 when it has none; it lies between 0 and 100. *)
Theorem report_score_is_mean (now text_content : string) :
  report_smart_score (validate_goals now text_content)
  = (if (goals_count (validate_goals now text_content) =? 0)%nat then 0
     else total_score (goals (validate_goals now text_content))
          / Z.of_nat (goals_count (validate_goals now text_content)))%Z
  /\ (0 <= report_smart_score (validate_goals now text_content) <= 100)%Z.
Proof.
  rewrite report_eq. cbv zeta. cbn [report_smart_score goals_count goals].
  pose proof (proj2 (extracted_goals_long text_content)) as Hten.
  pose proof (total_score_bounds _ (analyses_from_analysed (_extract_goals text_content) 0))
    as Htotal.
  assert (Hlen : List.length (analyses_from (_extract_goals text_content) 0)
                 = List.length (_extract_goals text_content))
    by (now rewrite <- (length_map original_text), analyses_from_texts).
  rewrite Hlen in Htotal.
  destruct (_extract_goals text_content) as [|goal rest] eqn:E.
  - cbn. split; [reflexivity | lia].
  - cbn [is_nil negb]. rewrite <- E in *.
    assert (Hpos : 1 <= List.length (_extract_goals text_content))
      by (rewrite E; cbn; lia).
    rewrite mean_exact by (try split; lia).
    destruct (Nat.eqb_spec (List.length (_extract_goals text_content)) 0) as [H0|_];
      [lia|].
    split; [reflexivity|].
    split.
    + apply Z.div_pos; lia.
    + apply Z.div_le_upper_bound; lia.
Qed.

(** When segmentation finds no goal the report has the quality level
    "Very Poor": the score 0 goes down the same ladder as any other. *)
Theorem no_goals_very_poor (now text_content : string) :
  _extract_goals text_content = [] ->
  quality_level (validate_goals now text_content) = "Very Poor".
Proof. intros Hnone. rewrite report_eq, Hnone. reflexivity. Qed.

(** [no_goals_very_poor] at the empty document. *)
Lemma no_goals_very_poor_witness :
  _extract_goals "" = [] /\ quality_level (validate_goals "" "") = "Very Poor".
Proof. split; [reflexivity | apply (no_goals_very_poor "" ""); reflexivity]. Defined.

(** ** The recommendations that no report holds *)

Lemma analysed_short_keys (analysis : GoalAnalysis) :
  analysed analysis ->
  occurrences "Goal lacks clear timeline" (issues analysis) = 0
  /\ occurrences "Goal lacks clear business relevance" (issues analysis) = 0.
Proof.
  intros (goal_text & goal_number & ->).
  cbn [_analyze_single_goal smart_assessment issues].
  unfold tally_of, assess.
  cbn [tally_assessment tally_issues tally_recommendations tally_score].
  destruct (PrimFloat.ltb 0.4 (_check_specific goal_text)),
           (PrimFloat.ltb 0.3 (_check_measurable goal_text)),
           (PrimFloat.ltb 0.3 (_check_achievable goal_text)),
           (PrimFloat.ltb 0.3 (_check_relevant goal_text)),
           (PrimFloat.ltb 0.3 (_check_time_bound goal_text));
    split; reflexivity.
Qed.

Lemma short_keys_never_counted (validated_goals : list GoalAnalysis) :
  Forall analysed validated_goals ->
  occurrences "Goal lacks clear timeline" (concat (map issues validated_goals)) = 0
  /\ occurrences "Goal lacks clear business relevance"
                 (concat (map issues validated_goals)) = 0.
Proof.
  induction 1 as [|goal rest Hgoal _ [IHt IHr]]; [split; reflexivity|].
  destruct (analysed_short_keys goal Hgoal) as [Ht Hr].
  cbn [map concat]. rewrite !occurrences_app, IHt, IHr, Ht, Hr. split; reflexivity.
Qed.

(** No report holds the recommendation on deadlines or the one on business
    value: their checks look up "Goal lacks clear timeline" and "Goal lacks
    clear business relevance", and no issue is counted under these keys.  So
    the recommendations of a report are the targeted ones for specific and
    measurable, at most, followed by all four general ones. *)
Theorem deadline_and_value_never_recommended (now text_content : string) :
  ~ In "Establish clear deadlines and milestones for all goals"
       (report_recommendations (validate_goals now text_content))
  /\ ~ In "Clearly articulate business value and impact for each goal"
          (report_recommendations (validate_goals now text_content))
  /\ exists targeted,
      report_recommendations (validate_goals now text_content)
      = (targeted ++ general_recommendations)%list
      /\ incl targeted [focus_on_specific; add_metrics]
      /\ 4 <= List.length (report_recommendations (validate_goals now text_content)) <= 6.
Proof.
  destruct (report_shape now text_content) as (Hall & Hlen & Hten & ->).
  set (validated := goals (validate_goals now text_content)) in *.
  rewrite <- Hlen in Hten. clearbody validated. clear Hlen.
  destruct (short_keys_never_counted validated Hall) as [Ht Hr].
  assert (Heq : _generate_overall_recommendations validated
                = firstn 6
                    ((if is_common (count_issues (concat (map issues validated)))
                                   "Goal lacks specificity" validated
                      then [focus_on_specific] else [])
                     ++ (if is_common (count_issues (concat (map issues validated)))
                                      "Goal lacks measurable success criteria" validated
                         then [add_metrics] else [])
                     ++ general_recommendations)%list).
  { rewrite overall_recommendations_eq. unfold is_common at 3 4.
    rewrite !count_issues_occurrences, Ht, Hr, !more_than_half by lia.
    change (List.length validated <? 2 * 0) with (List.length validated <? 0).
    destruct (Nat.ltb_spec (List.length validated) 0) as [Hlt|_]; [lia | reflexivity]. }
  rewrite Heq. clear Heq.
  destruct (is_common (count_issues (concat (map issues validated)))
                      "Goal lacks specificity" validated),
           (is_common (count_issues (concat (map issues validated)))
                      "Goal lacks measurable success criteria" validated);
    (split; [intros Hin; cbn in Hin; unfold focus_on_specific, add_metrics in Hin;
             repeat (destruct Hin as [Hin|Hin]; [discriminate Hin|]); exact Hin|]);
    (split; [intros Hin; cbn in Hin; unfold focus_on_specific, add_metrics in Hin;
             repeat (destruct Hin as [Hin|Hin]; [discriminate Hin|]); exact Hin|]);
    [ exists [focus_on_specific; add_metrics]
    | exists [focus_on_specific]
    | exists [add_metrics]
    | exists [] ];
    (split; [reflexivity|]);
    (split; [intros x Hx; cbn in Hx |- *; tauto | cbn; lia]).
Qed.

(** ** The scores of a goal *)

(** Each of the five scores of a goal lies between 0 and 1, and the score
    of the goal is an integer between 0 and 100. *)
Theorem scores_in_range (goal_text : string) (goal_number : nat) :
  Forall (fun score => PrimFloat.leb 0 score = true /\ PrimFloat.leb score 1 = true)
         [ _check_specific goal_text; _check_measurable goal_text;
           _check_achievable goal_text; _check_relevant goal_text;
           _check_time_bound goal_text ]
  /\ (0 <= smart_score (_analyze_single_goal goal_text goal_number) <= 100)%Z.
Proof.
  split; [|apply smart_score_in_range].
  eapply Forall_impl; [|apply raw_scores_clamped].
  intros score Hscore. unfold ScoreValues.in_unit_interval in Hscore.
  now apply andb_prop in Hscore.
Qed.

Lemma assessment_entries (goal_text : string) (goal_number : nat) :
  smart_assessment (_analyze_single_goal goal_text goal_number)
  = [ ("specific", PrimFloat.ltb 0.4 (_check_specific goal_text));
      ("measurable", PrimFloat.ltb 0.3 (_check_measurable goal_text));
      ("achievable", PrimFloat.ltb 0.3 (_check_achievable goal_text));
      ("relevant", PrimFloat.ltb 0.3 (_check_relevant goal_text));
      ("time_bound", PrimFloat.ltb 0.3 (_check_time_bound goal_text)) ].
Proof. reflexivity. Qed.

(** A goal fails achievable only when at least two of the five warning
    keywords occur in it: with one or none its score is above 0.3 whatever
    else it says. *)
Theorem achievable_unless_two_warnings (goal_text : string) (goal_number : nat) :
  hits achievable_warning_keywords (lower goal_text) <= 1 ->
  PyDict.get (smart_assessment (_analyze_single_goal goal_text goal_number))
             "achievable" false = true.
Proof.
  intros Hwarnings. rewrite assessment_entries. cbn [PyDict.get String.eqb Ascii.eqb Bool.eqb].
  unfold _check_achievable, for_each_word. cbv zeta. rewrite !fold_hits.
  fold (hits achievable_warning_keywords (lower goal_text)).
  assert (Hrealism : List.length
                       (filter (fun word => contains word (lower goal_text))
                               achievable_keywords) <= 4)
    by apply filter_length_le.
  revert Hwarnings Hrealism.
  generalize (hits achievable_warning_keywords (lower goal_text)).
  generalize (List.length (filter (fun word => contains word (lower goal_text))
                                  achievable_keywords)).
  intros realism warnings Hwarnings Hrealism.
  do 2 (destruct warnings as [|warnings];
        [do 5 (destruct realism as [|realism]; [vm_compute; reflexivity|]);
         exfalso; lia|]).
  exfalso; lia.
Qed.

(** [achievable_unless_two_warnings] at a goal with the one warning keyword
    "perfect". *)
Lemma achievable_unless_two_warnings_witness :
  hits achievable_warning_keywords (lower perfect_goal) <= 1
  /\ PyDict.get (smart_assessment (_analyze_single_goal perfect_goal 1))
                "achievable" false = true.
Proof.
  split; [vm_compute; repeat constructor|].
  apply (achievable_unless_two_warnings perfect_goal 1). vm_compute. repeat constructor.
Defined.

(** A goal with at most one of the six specificity keywords never passes
    specific, whatever its length and whatever else it says. *)
Theorem specific_needs_two_keywords (goal_text : string) (goal_number : nat) :
  hits specific_keywords (lower goal_text) <= 1 ->
  PyDict.get (smart_assessment (_analyze_single_goal goal_text goal_number))
             "specific" true = false.
Proof.
  intros Hkeywords. rewrite assessment_entries. cbn [PyDict.get String.eqb Ascii.eqb Bool.eqb].
  unfold _check_specific, for_each_word. cbv zeta. rewrite !fold_hits.
  fold (hits specific_keywords (lower goal_text)).
  assert (Hvague : List.length
                     (filter (fun word => contains word (lower goal_text))
                             specific_anti_keywords) <= 5)
    by apply filter_length_le.
  revert Hkeywords Hvague.
  generalize (hits specific_keywords (lower goal_text)).
  generalize (List.length (filter (fun word => contains word (lower goal_text))
                                  specific_anti_keywords)).
  generalize (20 <? List.length (PyStr.split goal_text)).
  intros long vague keywords Hkeywords Hvague.
  do 2 (destruct keywords as [|keywords];
        [do 6 (destruct vague as [|vague];
               [destruct long; vm_compute; reflexivity|]);
         exfalso; lia|]).
  exfalso; lia.
Qed.

(** [specific_needs_two_keywords] at a goal with none of the keywords. *)
Lemma specific_needs_two_keywords_witness :
  hits specific_keywords (lower perfect_goal) <= 1
  /\ PyDict.get (smart_assessment (_analyze_single_goal perfect_goal 1))
                "specific" true = false.
Proof.
  split; [vm_compute; repeat constructor|].
  apply (specific_needs_two_keywords perfect_goal 1). vm_compute. repeat constructor.
Defined.

(** ** Documents without goals *)

Lemma findall_none (marker : matcher) (fuel : nat) :
  forall s, search marker s = false -> findall_blocks_from marker fuel s = [].
Proof.
  unfold search.
  induction fuel as [|fuel IH]; intros s Hnone; [reflexivity|].
  cbn [findall_blocks_from]. destruct s as [|c t]; cbn [search_first] in Hnone.
  - destruct (marker "") eqn:E; [discriminate | reflexivity].
  - destruct (marker (String c t)) eqn:E; [discriminate|]. now apply IH.
Qed.

Lemma lstrip_length (s : string) : String.length (lstrip s) <= String.length s.
Proof.
  induction s as [|c t IH]; cbn; [lia|]. destruct (isspace c); cbn; lia.
Qed.

Lemma rstrip_length (s : string) : String.length (rstrip s) <= String.length s.
Proof.
  induction s as [|c t IH]; cbn [rstrip]; [cbn; lia|].
  destruct (rstrip t) as [|c' t'].
  - destruct (isspace c); cbn in *; lia.
  - cbn in *. lia.
Qed.

Lemma strip_length (s : string) : String.length (strip s) <= String.length s.
Proof.
  unfold strip. pose proof (rstrip_length (lstrip s)). pose proof (lstrip_length s). lia.
Qed.

Lemma split_pieces_short (sep : matcher) (fuel : nat) :
  reading sep ->
  forall piece s,
    Forall (fun p => String.length p <= String.length piece + String.length s)
           (split_from sep fuel piece s).
Proof.
  intros Hsep. induction fuel as [|fuel IH]; intros piece s; cbn [split_from].
  - constructor; [lia | constructor].
  - destruct (sep s) as [rest|] eqn:E.
    + constructor; [lia|]. pose proof (Hsep _ _ E) as Hrest.
      eapply Forall_impl; [|apply IH]. intros p Hp. cbn in Hp. lia.
    + destruct s as [|c t]; [constructor; [lia | constructor]|].
      eapply Forall_impl; [|apply IH]. intros p Hp.
      rewrite GenerationFacts.length_append in Hp. cbn in *. lia.
Qed.

Lemma filter_none {A : Type} (f : A -> bool) (l : list A) :
  Forall (fun x => f x = false) l -> filter f l = [].
Proof. induction 1 as [|a l Ha _ IH]; cbn; [reflexivity | now rewrite Ha]. Qed.

(** A document of at most 50 characters in which none of the four goal
    markers is found yields no goal, whatever it says: the fragments of the
    fall-back split are kept only when longer than 50 characters. *)
Theorem short_unmarked_document_has_no_goal (text_content : string) :
  existsb (fun pattern => search pattern text_content) goal_patterns = false ->
  String.length text_content <= 50 ->
  _extract_goals text_content = [].
Proof.
  intros Hmarkers Hshort. unfold goal_patterns in Hmarkers.
  cbn [existsb] in Hmarkers.
  repeat (apply orb_false_elim in Hmarkers; destruct Hmarkers as [? Hmarkers]).
  unfold _extract_goals, goal_patterns, findall_blocks. cbn [fold_left].
  rewrite !findall_none by assumption. cbn [map app is_nil].
  rewrite filter_none; [reflexivity|].
  eapply Forall_impl;
    [|apply (split_pieces_short goal_separator _
               (PyReFacts.consuming_reading _ PyReFacts.goal_separator_consuming)
               EmptyString text_content)].
  intros p Hp. cbn in Hp. apply Nat.ltb_ge.
  pose proof (strip_length p). lia.
Qed.

(** [short_unmarked_document_has_no_goal] at a one-line goal of 42
    characters. *)
Lemma short_unmarked_document_witness :
  existsb (fun pattern => search pattern "Improve customer satisfaction by 20% by Q3")
          goal_patterns = false
  /\ String.length "Improve customer satisfaction by 20% by Q3" <= 50
  /\ _extract_goals "Improve customer satisfaction by 20% by Q3" = [].
Proof.
  split; [reflexivity|]. split; [vm_compute; repeat constructor|].
  apply (short_unmarked_document_has_no_goal "Improve customer satisfaction by 20% by Q3");
    [reflexivity | vm_compute; repeat constructor].
Defined.

(** ** The goals of segmentation are in normal form *)

Lemma collapse_idempotent (s : string) :
  forall in_run : bool,
    collapse_spaces in_run (collapse_spaces in_run s) = collapse_spaces in_run s.
Proof.
  induction s as [|c t IH]; intros in_run; cbn [collapse_spaces]; [reflexivity|].
  destruct (isspace c) eqn:Ec.
  - destruct in_run; [apply IH|].
    cbn [collapse_spaces]. change (isspace " ") with true. cbv iota. now rewrite IH.
  - cbn [collapse_spaces]. rewrite Ec. now rewrite IH.
Qed.

Lemma lstrip_starts_clean (s : string) : starts_clean (lstrip s) = true.
Proof.
  induction s as [|c t IH]; cbn; [reflexivity|].
  destruct (isspace c) eqn:Ec; [exact IH | cbn; now rewrite Ec].
Qed.

Lemma rstrip_ends_clean (s : string) : ends_clean (rstrip s) = true.
Proof.
  induction s as [|c t IH]; cbn [rstrip]; [reflexivity|].
  destruct (rstrip t) as [|c' t'] eqn:E.
  - destruct (isspace c) eqn:Ec; cbn; [reflexivity | now rewrite Ec].
  - cbn [ends_clean is_empty]. exact IH.
Qed.

Lemma rstrip_starts_clean (s : string) :
  starts_clean s = true -> starts_clean (rstrip s) = true.
Proof.
  destruct s as [|c t]; cbn [rstrip starts_clean]; [reflexivity|].
  intros Hc. destruct (rstrip t); [|exact Hc].
  destruct (isspace c) eqn:Ec; [discriminate | cbn; now rewrite Ec].
Qed.

Lemma lstrip_fixed (s : string) : starts_clean s = true -> lstrip s = s.
Proof.
  destruct s as [|c t]; cbn; [reflexivity|]. now destruct (isspace c).
Qed.

Lemma rstrip_fixed (s : string) : ends_clean s = true -> rstrip s = s.
Proof.
  induction s as [|c t IH]; cbn [rstrip ends_clean]; [reflexivity|].
  destruct t as [|c' t'].
  - cbn. now destruct (isspace c).
  - cbn [is_empty]. intros Hends. now rewrite (IH Hends).
Qed.

Lemma collapse_starts_clean (s : string) :
  starts_clean s = true -> starts_clean (collapse_spaces false s) = true.
Proof.
  destruct s as [|c t]; cbn; [reflexivity|].
  destruct (isspace c) eqn:Ec; [discriminate|]. intros _. cbn. now rewrite Ec.
Qed.

Lemma collapse_cons (in_run : bool) (c : ascii) (t : string) :
  collapse_spaces in_run (String c t)
  = if isspace c
    then (if in_run then collapse_spaces true t
          else String " "%char (collapse_spaces true t))
    else String c (collapse_spaces false t).
Proof. reflexivity. Qed.

Lemma ends_clean_cons (c : ascii) (t : string) :
  ends_clean (String c t) = if is_empty t then negb (isspace c) else ends_clean t.
Proof. reflexivity. Qed.

Lemma collapse_not_empty (s : string) :
  forall in_run : bool,
    ends_clean s = true -> is_empty s = false ->
    is_empty (collapse_spaces in_run s) = false.
Proof.
  induction s as [|c t IH]; intros in_run Hends Hs; [discriminate|].
  rewrite ends_clean_cons in Hends. rewrite collapse_cons.
  destruct (is_empty t) eqn:Et.
  - destruct (isspace c); [discriminate | reflexivity].
  - destruct (isspace c); [destruct in_run; [now apply IH | reflexivity] | reflexivity].
Qed.

Lemma collapse_ends_clean (s : string) :
  forall in_run : bool,
    ends_clean s = true -> ends_clean (collapse_spaces in_run s) = true.
Proof.
  induction s as [|c t IH]; intros in_run Hends; [reflexivity|].
  rewrite ends_clean_cons in Hends. rewrite collapse_cons.
  destruct (is_empty t) eqn:Et.
  - destruct t; [|discriminate]. destruct (isspace c) eqn:Ec; [discriminate|].
    cbn. now rewrite Ec.
  - destruct (isspace c).
    + destruct in_run; [now apply IH|].
      rewrite ends_clean_cons, collapse_not_empty by assumption. now apply IH.
    + rewrite ends_clean_cons, collapse_not_empty by assumption. now apply IH.
Qed.

Lemma cleaned_is_normal (goal : string) :
  strip (collapse_spaces false (strip goal)) = collapse_spaces false (strip goal)
  /\ collapse_spaces false (collapse_spaces false (strip goal))
     = collapse_spaces false (strip goal).
Proof.
  split; [|apply collapse_idempotent].
  unfold strip at 1.
  rewrite lstrip_fixed.
  - apply rstrip_fixed, collapse_ends_clean. unfold strip. apply rstrip_ends_clean.
  - apply collapse_starts_clean. unfold strip.
    apply rstrip_starts_clean, lstrip_starts_clean.
Qed.

Lemma clean_goals_forall (P : string -> Prop) (goals : list string) :
  (forall goal, P (collapse_spaces false (strip goal))) ->
  Forall P (clean_goals goals).
Proof.
  intros HP. unfold clean_goals.
  assert (H : forall cleaned_goals,
             Forall P cleaned_goals ->
             Forall P
               (fold_left
                  (fun cleaned_goals goal =>
                     let cleaned_goal := collapse_spaces false (strip goal) in
                     if 20 <? String.length cleaned_goal
                     then (cleaned_goals ++ [cleaned_goal])%list
                     else cleaned_goals)
                  goals cleaned_goals)).
  { induction goals as [|goal rest IH]; intros cleaned_goals Hall; [exact Hall|].
    cbn [fold_left]. apply IH. cbv zeta.
    destruct (20 <? String.length (collapse_spaces false (strip goal))); [|exact Hall].
    apply Forall_app. split; [exact Hall | constructor; [apply HP | constructor]]. }
  apply H. constructor.
Qed.

Lemma clean_goals_of_normal (goals : list string) :
  Forall (fun goal => collapse_spaces false (strip goal) = goal
                      /\ 20 < String.length goal) goals ->
  clean_goals goals = goals.
Proof.
  intros Hall. unfold clean_goals.
  assert (H : forall cleaned_goals,
             fold_left
               (fun cleaned_goals goal =>
                  let cleaned_goal := collapse_spaces false (strip goal) in
                  if 20 <? String.length cleaned_goal
                  then (cleaned_goals ++ [cleaned_goal])%list
                  else cleaned_goals)
               goals cleaned_goals
             = (cleaned_goals ++ goals)%list).
  { induction Hall as [|goal rest [Hnormal Hlong] _ IH]; intros cleaned_goals;
      cbn [fold_left]; [now rewrite app_nil_r|].
    cbv zeta. rewrite Hnormal. apply Nat.ltb_lt in Hlong. rewrite Hlong.
    now rewrite IH, <- app_assoc. }
  apply H.
Qed.

(** Every goal that segmentation returns is in normal form: stripping it
    and collapsing its whitespace again leave it as it is (it starts and
    ends with no whitespace and its only whitespace is single spaces), so
    cleaning the returned goals a second time returns the same list. *)
Theorem extracted_goals_normal (text_content : string) :
  Forall (fun goal => strip goal = goal /\ collapse_spaces false goal = goal)
         (_extract_goals text_content)
  /\ clean_goals (_extract_goals text_content) = _extract_goals text_content.
Proof.
  assert (Hnormal : Forall (fun goal => strip goal = goal
                                        /\ collapse_spaces false goal = goal)
                           (_extract_goals text_content)).
  { unfold _extract_goals. apply Forall_firstn. apply clean_goals_forall.
    intros goal. apply cleaned_is_normal. }
  split; [exact Hnormal|].
  apply clean_goals_of_normal.
  pose proof (proj1 (extracted_goals_long text_content)) as Hlong.
  apply Forall_forall. intros goal Hin.
  pose proof (proj1 (Forall_forall _ _) Hnormal goal Hin) as [Hstrip Hcollapse].
  pose proof (proj1 (Forall_forall _ _) Hlong goal Hin) as Hlen.
  split; [now rewrite Hstrip | exact Hlen].
Qed.

End ReportFacts.
